(** * Toy robot simulator: a shallow embedding of [toy_robot.py]

    The robot lives in a Python dict with the four fixed keys ["x"], ["y"],
    ["facing"] and ["is_placed"]; no function adds or removes a key, so the
    dict is a record here.  The functions of the source mutate that one
    dict in place and may raise; they are written in a monad that threads
    the record and keeps it when an exception is raised, as Python keeps
    the dict.

    Text is ASCII: a character is a code point below 128, and the built-in
    string methods are modelled on those.  The functions are total on
    Rocq's 8-bit characters and treat a code of 128 or more as a symbol
    that is neither white space, nor a letter, nor a digit. *)

From Stdlib Require Import ZArith List Bool Lia.
From Stdlib Require Import Strings.Ascii Strings.String Numbers.DecimalString.
Import ListNotations.

Local Open Scope string_scope.
Local Open Scope Z_scope.

(** ** Exceptions and the interpreter monad *)

Inductive exn : Type :=
| TypeError
| ValueError
| IndexError.

Inductive result (A : Type) : Type :=
| Ret (a : A)
| Raise (e : exn).

Arguments Ret {A} a.
Arguments Raise {A} e.

(** ** The Python built-ins the program calls, on ASCII text *)

Module Py.

(** [c.isspace()]: TAB, LF, VT, FF, CR, the separators FS GS RS US,
    and the space. *)
Definition isspace (c : ascii) : bool :=
  let n := nat_of_ascii c in
  ((9 <=? n) && (n <=? 13) || (28 <=? n) && (n <=? 32))%nat.

Definition upper_char (c : ascii) : ascii :=
  let n := nat_of_ascii c in
  if ((97 <=? n) && (n <=? 122))%nat then ascii_of_nat (n - 32) else c.

(** [s.upper()] *)
Fixpoint upper (s : string) : string :=
  match s with
  | EmptyString => EmptyString
  | String c s' => String (upper_char c) (upper s')
  end.

(** [s.lstrip()] *)
Fixpoint lstrip (s : string) : string :=
  match s with
  | EmptyString => EmptyString
  | String c s' => if isspace c then lstrip s' else s
  end.

(** [s.rstrip()] *)
Fixpoint rstrip (s : string) : string :=
  match s with
  | EmptyString => EmptyString
  | String c s' =>
      match rstrip s' with
      | EmptyString => if isspace c then EmptyString else String c EmptyString
      | r => String c r
      end
  end.

(** [s.strip()] *)
Definition strip (s : string) : string := rstrip (lstrip s).

(** [s.rstrip(chars)] for a one-character [chars] *)
Fixpoint rstrip_char (ch : ascii) (s : string) : string :=
  match s with
  | EmptyString => EmptyString
  | String c s' =>
      match rstrip_char ch s' with
      | EmptyString => if Ascii.eqb c ch then EmptyString else String c EmptyString
      | r => String c r
      end
  end.

(** [s.split()]: the maximal runs of characters that are not white
    space, in order; [cur] is the run being read. *)
Fixpoint split_from (cur : string) (s : string) : list string :=
  match s with
  | EmptyString => match cur with EmptyString => [] | _ => [cur] end
  | String c s' =>
      if isspace c then
        match cur with
        | EmptyString => split_from EmptyString s'
        | _ => cur :: split_from EmptyString s'
        end
      else split_from (cur ++ String c EmptyString) s'
  end.

Definition split (s : string) : list string := split_from EmptyString s.

(** [s.split(sep)] for a one-character [sep]: empty fields are kept and
    the result is never empty. *)
Fixpoint split_sep_from (sep : ascii) (cur : string) (s : string) : list string :=
  match s with
  | EmptyString => [cur]
  | String c s' =>
      if Ascii.eqb c sep then cur :: split_sep_from sep EmptyString s'
      else split_sep_from sep (cur ++ String c EmptyString) s'
  end.

Definition split_sep (sep : ascii) (s : string) : list string :=
  split_sep_from sep EmptyString s.

Definition is_digit (c : ascii) : bool :=
  let n := nat_of_ascii c in ((48 <=? n) && (n <=? 57))%nat.

Definition digit_val (c : ascii) : Z := Z.of_nat (nat_of_ascii c) - 48.

(** The digits of an integer literal in base 10: decimal digits with
    single underscores between them.  [sep] says that a digit must come
    next (at the start and after an underscore); the result is the value
    and the number of digits read. *)
Fixpoint int_digits (s : string) (acc : Z) (ndigits : nat) (sep : bool)
  : option (Z * nat) :=
  match s with
  | EmptyString => if sep then None else Some (acc, ndigits)
  | String c s' =>
      if is_digit c then int_digits s' (10 * acc + digit_val c) (S ndigits) false
      else if Ascii.eqb c "_" then
        (if sep then None else int_digits s' acc ndigits true)
      else None
  end.

(** The white space [int] drops around a literal in an ASCII string:
    TAB, LF, VT, FF, CR and the space, without the four separators that
    [str.isspace] also counts. *)
Definition is_c_space (c : ascii) : bool :=
  let n := nat_of_ascii c in
  ((9 <=? n) && (n <=? 13) || (n =? 32))%nat.

Fixpoint int_lstrip (s : string) : string :=
  match s with
  | EmptyString => EmptyString
  | String c s' => if is_c_space c then int_lstrip s' else s
  end.

Fixpoint int_rstrip (s : string) : string :=
  match s with
  | EmptyString => EmptyString
  | String c s' =>
      match int_rstrip s' with
      | EmptyString => if is_c_space c then EmptyString else String c EmptyString
      | r => String c r
      end
  end.

(** [int(s)] for a string [s]: white space around the literal is
    dropped, one sign is allowed, leading zeros are allowed.
    [max_str_digits] is the interpreter's limit on the number of digits
    ([sys.get_int_max_str_digits()], 4300 by default, 0 for no limit). *)
Definition int (max_str_digits : nat) (s : string) : result Z :=
  let body := int_rstrip (int_lstrip s) in
  let '(negative, digits) :=
    match body with
    | String "+" r => (false, r)
    | String "-" r => (true, r)
    | _ => (false, body)
    end in
  match int_digits digits 0 0 true with
  | None => Raise ValueError
  | Some (v, n) =>
      if ((0 <? max_str_digits) && (max_str_digits <? n))%nat
      then Raise ValueError
      else Ret (if negative then - v else v)
  end.

(** The decimal text of an int. *)
Definition decimal (n : Z) : string := NilZero.string_of_int (Z.to_int n).

(** [str(n)] for an int [n]: the decimal text, or [ValueError] when it
    has more digits, the sign not counted, than the interpreter's limit
    [max_str_digits] (0 for no limit). *)
Definition str_int (max_str_digits : nat) (n : Z) : result string :=
  let digits := String.length (decimal (Z.abs n)) in
  if ((0 <? max_str_digits) && (max_str_digits <? digits))%nat
  then Raise ValueError
  else Ret (decimal n).

(** How an f-string shows a value that is [None] or an int, and one that
    is [None] or a string. *)
Definition format_int (max_str_digits : nat) (v : option Z) : result string :=
  match v with
  | None => Ret "None"
  | Some n => str_int max_str_digits n
  end.

Definition format_str (v : option string) : string :=
  match v with
  | None => "None"
  | Some s => s
  end.

(** [v in l] for a list of strings *)
Definition contains (l : list string) (v : string) : bool :=
  existsb (String.eqb v) l.

(** [l.index(v)]: the first position of [v], [ValueError] when absent.
    The value looked up may be [None], which no string equals. *)
Fixpoint index_from (l : list string) (v : option string) (i : Z) : result Z :=
  match l with
  | [] => Raise ValueError
  | s :: l' =>
      match v with
      | Some t => if String.eqb s t then Ret i else index_from l' v (i + 1)
      | None => index_from l' v (i + 1)
      end
  end.

Definition index (l : list string) (v : option string) : result Z :=
  index_from l v 0.

(** [l[i]]: a negative index counts from the end. *)
Definition getitem {A : Type} (l : list A) (i : Z) : result A :=
  let n := Z.of_nat (List.length l) in
  let j := if i <? 0 then i + n else i in
  if (j <? 0) || (n <=? j) then Raise IndexError
  else match nth_error l (Z.to_nat j) with
       | Some a => Ret a
       | None => Raise IndexError
       end.

(** [a == b] where [a] may be [None] *)
Definition eq_str (a : option string) (b : string) : bool :=
  match a with
  | Some s => String.eqb s b
  | None => false
  end.

(** [a == b] where [a] may be [None] and [b] is an int *)
Definition eq_int (a : option Z) (b : Z) : bool :=
  match a with
  | Some n => Z.eqb n b
  | None => false
  end.

(** [sep.join(l)] *)
Fixpoint join (sep : string) (l : list string) : string :=
  match l with
  | [] => EmptyString
  | s :: l' =>
      match l' with
      | [] => s
      | _ => s ++ sep ++ join sep l'
      end
  end.

(** [l * n] for a list [l] *)
Definition mul_list {A : Type} (l : list A) (n : Z) : list A :=
  List.concat (List.repeat l (Z.to_nat n)).

(** [range(n)] *)
Definition range (n : Z) : list Z := List.map Z.of_nat (List.seq 0 (Z.to_nat n)).

(** The line feed, as a character and as a string. *)
Definition newline_char : ascii := "010"%char.
Definition newline : string := String newline_char EmptyString.

End Py.


(** ** The robot state *)

Record state : Type := mkState {
  x : option Z;
  y : option Z;
  facing : option string;
  is_placed : bool
}.

(** A computation reads and writes the one state and either returns or
    raises; the state it leaves is there in both cases. *)
Definition M (A : Type) : Type := state -> result A * state.

Definition ret {A : Type} (a : A) : M A := fun st => (Ret a, st).

Definition raise {A : Type} (e : exn) : M A := fun st => (Raise e, st).

Definition bind {A B : Type} (c : M A) (k : A -> M B) : M B :=
  fun st =>
    match c st with
    | (Ret a, st') => k a st'
    | (Raise e, st') => (Raise e, st')
    end.

Declare Scope robot_scope.
Delimit Scope robot_scope with robot.
Notation "v <- c ;; k" := (bind c (fun v => k))
  (at level 61, c at next level, right associativity) : robot_scope.
Notation "c ;; k" := (bind c (fun _ => k))
  (at level 61, right associativity) : robot_scope.
Notation "' pat <- c ;; k" := (bind c (fun v => match v with pat => k end))
  (at level 61, pat pattern, c at next level, right associativity) : robot_scope.
Local Open Scope robot_scope.

(** A pure call that may raise, run inside a computation. *)
Definition lift {A : Type} (r : result A) : M A := fun st => (r, st).

(** [state[key]] *)
Definition get {A : Type} (key : state -> A) : M A := fun st => (Ret (key st), st).

(** [state["x"] = v] and the like *)
Definition set_x (v : option Z) : M unit :=
  fun st => (Ret tt, mkState v (y st) (facing st) (is_placed st)).

Definition set_y (v : option Z) : M unit :=
  fun st => (Ret tt, mkState (x st) v (facing st) (is_placed st)).

Definition set_facing (v : option string) : M unit :=
  fun st => (Ret tt, mkState (x st) (y st) v (is_placed st)).

Definition set_is_placed (v : bool) : M unit :=
  fun st => (Ret tt, mkState (x st) (y st) (facing st) v).

(** [try: body except ValueError: handler] *)
Definition try_except_ValueError {A : Type} (body : M A) (handler : M A) : M A :=
  fun st =>
    match body st with
    | (Raise ValueError, st') => handler st'
    | r => r
    end.

(** [a + b] where [a] was read from the state and may be [None] *)
Definition add (a : option Z) (b : Z) : M Z :=
  match a with
  | Some n => ret (n + b)
  | None => raise TypeError
  end.

(** ** The program *)

Definition TABLE_WIDTH : Z := 5.
Definition TABLE_HEIGHT : Z := 5.
Definition DIRECTIONS : list string := ["NORTH"; "EAST"; "SOUTH"; "WEST"].

Definition create_initial_state : state :=
  {| x := None; y := None; facing := None; is_placed := false |}.

Definition is_valid_position (x y : Z) : bool :=
  ((0 <=? x) && (x <? TABLE_WIDTH)) && ((0 <=? y) && (y <? TABLE_HEIGHT)).

Definition place (x y : Z) (facing : string) : M unit :=
  let facing := Py.upper facing in
  if negb (Py.contains DIRECTIONS facing) then ret tt
  else if negb (is_valid_position x y) then ret tt
  else
    set_x (Some x) ;;
    set_y (Some y) ;;
    set_facing (Some facing) ;;
    set_is_placed true.

Definition move : M unit :=
  placed <- get is_placed ;;
  if negb placed then ret tt
  else
    x <- get x ;;
    y <- get y ;;
    f <- get facing ;;
    let '(dx, dy) :=
      if Py.eq_str f "NORTH" then (0, 1)
      else if Py.eq_str f "SOUTH" then (0, -1)
      else if Py.eq_str f "EAST" then (1, 0)
      else if Py.eq_str f "WEST" then (-1, 0)
      else (0, 0) in
    new_x <- add x dx ;;
    new_y <- add y dy ;;
    if is_valid_position new_x new_y then
      set_x (Some new_x) ;;
      set_y (Some new_y)
    else ret tt.

Definition rotate_left : M unit :=
  placed <- get is_placed ;;
  if negb placed then ret tt
  else
    f <- get facing ;;
    idx <- lift (Py.index DIRECTIONS f) ;;
    d <- lift (Py.getitem DIRECTIONS ((idx - 1) mod Z.of_nat (List.length DIRECTIONS))) ;;
    set_facing (Some d).

Definition rotate_right : M unit :=
  placed <- get is_placed ;;
  if negb placed then ret tt
  else
    f <- get facing ;;
    idx <- lift (Py.index DIRECTIONS f) ;;
    d <- lift (Py.getitem DIRECTIONS ((idx + 1) mod Z.of_nat (List.length DIRECTIONS))) ;;
    set_facing (Some d).

(** CPython's default for the limit on the digits [int] and [str]
    convert. *)
Definition default_max_str_digits : nat := 4300.

Section Interpreter.

(** The interpreter's limit on the digits [int] and [str] convert. *)
Variable max_str_digits : nat.

(** The f-string converts x, then y; a coordinate with more digits than
    the limit raises [ValueError]. *)
Definition report : M (option string) :=
  placed <- get is_placed ;;
  if negb placed then ret None
  else
    x <- get x ;;
    y <- get y ;;
    f <- get facing ;;
    x_text <- lift (Py.format_int max_str_digits x) ;;
    y_text <- lift (Py.format_int max_str_digits y) ;;
    ret (Some (x_text ++ "," ++ y_text ++ "," ++ Py.format_str f)).

(** [x_str, y_str, facing = fields]: unpacking raises [ValueError] unless
    there are exactly three fields. *)
Definition unpack3 (fields : list string) : result (string * string * string) :=
  match fields with
  | [a; b; c] => Ret (a, b, c)
  | _ => Raise ValueError
  end.

(** *** The ASCII visualization *)

Definition _direction_symbol (facing : option string) : string :=
  if Py.eq_str facing "NORTH" then "^"
  else if Py.eq_str facing "SOUTH" then "v"
  else if Py.eq_str facing "EAST" then ">"
  else if Py.eq_str facing "WEST" then "<"
  else "?".

(** The list [lines] that [render_table] builds before it joins it.  The
    function reads the state and stores nothing, so it is a function of
    the state; the two loops append one entry per index, which is a map
    over the range.  The f-string of the last line converts the
    coordinates and raises [ValueError] as [report] does. *)
Definition render_lines (state : state) : result (list string) :=
  let state_x := x state in
  let state_y := y state in
  let horizontal_border :=
    "+" ++ Py.join "+" (Py.mul_list ["---"] TABLE_WIDTH) ++ "+" in
  let lines :=
    List.flat_map
      (fun y =>
         let row_cells :=
           List.map
             (fun x =>
                let cell :=
                  if is_placed state && Py.eq_int state_x x && Py.eq_int state_y y
                  then " " ++ _direction_symbol (facing state) ++ " "
                  else "   " in
                "|" ++ cell)
             (Py.range TABLE_WIDTH) in
         [horizontal_border; Py.join "" row_cells ++ "|"])
      (List.rev (Py.range TABLE_HEIGHT)) in
  let lines := (lines ++ [horizontal_border])%list in
  if is_placed state then
    match Py.format_int max_str_digits state_x with
    | Raise e => Raise e
    | Ret x_text =>
        match Py.format_int max_str_digits state_y with
        | Raise e => Raise e
        | Ret y_text =>
            let status :=
              "Robot: " ++ x_text ++ "," ++ y_text ++ ","
              ++ Py.format_str (facing state) in
            Ret (lines ++ [status])%list
        end
    end
  else Ret (lines ++ ["Robot not placed."])%list.

Definition render_table (state : state) : result string :=
  match render_lines state with
  | Ret lines => Ret (Py.join Py.newline lines)
  | Raise e => Raise e
  end.

Definition process_line (line : string) : M (option string) :=
  let line := Py.strip line in
  if String.eqb line "" then ret None
  else
    let parts := Py.split line in
    cmd <- lift (Py.getitem parts 0) ;;
    let cmd := Py.upper cmd in
    if String.eqb cmd "PLACE" then
      if (List.length parts <? 2)%nat then ret None
      else
        parsed <- try_except_ValueError
          (args_part <- lift (Py.getitem parts 1) ;;
           '(x_str, y_str, facing) <- lift (unpack3 (Py.split_sep "," args_part)) ;;
           x <- lift (Py.int max_str_digits x_str) ;;
           y <- lift (Py.int max_str_digits y_str) ;;
           ret (Some (x, y, facing)))
          (ret None) ;;
        match parsed with
        | None => ret None
        | Some (x, y, facing) => place x y facing ;; ret None
        end
    else
      placed <- get is_placed ;;
      if negb placed then ret None
      else if String.eqb cmd "MOVE" then move ;; ret None
      else if String.eqb cmd "LEFT" then rotate_left ;; ret None
      else if String.eqb cmd "RIGHT" then rotate_right ;; ret None
      else if String.eqb cmd "REPORT" then report
      else ret None.

(** The loop of [run_stream] without the visualization: the lines that
    are printed, in order, the state left, and whether the loop ended or
    a line raised. *)
Fixpoint run_stream_from (stream : list string) (st : state)
  : result unit * state * list string :=
  match stream with
  | [] => (Ret tt, st, [])
  | raw_line :: rest =>
      let line := Py.rstrip_char "010" raw_line in
      match process_line line st with
      | (Raise e, st') => (Raise e, st', [])
      | (Ret None, st') => run_stream_from rest st'
      | (Ret (Some r), st') =>
          let '(res, st'', printed) := run_stream_from rest st' in
          (res, st'', r :: printed)
      end
  end.

Definition run_stream (stream : list string) : result unit * state * list string :=
  run_stream_from stream create_initial_state.

(** [if visual: print(render_table(state))]: the entries printed, or
    the exception that [render_table] raises. *)
Definition print_table (visual : bool) (st : state) : result (list string) :=
  if visual then
    match render_table st with
    | Ret table => Ret [table]
    | Raise e => Raise e
    end
  else Ret [].

(** The whole loop of [run_stream], with its [visual] flag: each entry of
    the list is the text of one call of [print].  The echo of the line
    is printed before the table is rendered. *)
Fixpoint run_stream_visual_from (visual : bool) (stream : list string) (st : state)
  : result unit * state * list string :=
  match stream with
  | [] => (Ret tt, st, [])
  | raw_line :: rest =>
      let line := Py.rstrip_char Py.newline_char raw_line in
      match process_line line st with
      | (Raise e, st') => (Raise e, st', [])
      | (Ret result, st') =>
          let echo :=
            if visual then
              let stripped := Py.strip line in
              if String.eqb stripped "" then []
              else [Py.newline ++ "> " ++ stripped]
            else [] in
          match print_table visual st' with
          | Raise e => (Raise e, st', echo)
          | Ret table =>
              let reported :=
                match result with
                | Some r => [r]
                | None => []
                end in
              let '(res, st'', printed) := run_stream_visual_from visual rest st' in
              (res, st'', (echo ++ table ++ reported ++ printed)%list)
          end
      end
  end.

Definition run_stream_visual (stream : list string) (visual : bool)
  : result unit * state * list string :=
  let state := create_initial_state in
  match print_table visual state with
  | Raise e => (Raise e, state, [])
  | Ret first =>
      let '(res, st, printed) := run_stream_visual_from visual stream state in
      (res, st, (first ++ printed)%list)
  end.

(** [run_commands] of the test file: the REPORT results, collected. *)
Fixpoint run_commands_loop (lines : list string) : M (list string) :=
  match lines with
  | [] => ret []
  | line :: rest =>
      result <- process_line line ;;
      outputs <- run_commands_loop rest ;;
      ret (match result with
           | Some r => r :: outputs
           | None => outputs
           end)
  end.

Definition run_commands (lines : list string) : result (list string) :=
  fst (run_commands_loop lines create_initial_state).

(** An exception of the input: an [OSError] with its text, or another
    exception (an error of decoding is a [ValueError]). *)
Inductive io_error : Type :=
| OSError (text : string)
| OtherError (e : exn).

(** What reading a text stream to its end gives: the lines it yields, and
    the exception that ends the reading when one does. *)
Record source : Type := mkSource {
  source_lines : list string;
  source_error : option io_error
}.

(** [run_stream(stream, visual)] on such a stream: the loop over the
    lines it yields, then the exception of the stream if it has one.
    The result is the exception that leaves [run_stream], if any, and
    what was printed. *)
Definition run_stream_source (stream : source) (visual : bool)
  : option io_error * list string :=
  let '(res, _, printed) := run_stream_visual (source_lines stream) visual in
  match res with
  | Raise e => (Some (OtherError e), printed)
  | Ret _ => (source_error stream, printed)
  end.

(** How [main] ends: the value it returns or the exception that leaves
    it. *)
Inductive ending : Type :=
| Returned (code : Z)
| Raised (e : io_error).

(** What [main] leaves: how it ends, and what was printed to each of the
    two streams. *)
Record outcome : Type := mkOutcome {
  returned : ending;
  stdout : list string;
  stderr : list string
}.

(** [main(argv)], where [argv] is the list of arguments ([sys.argv[1:]]
    when the caller gives none).  [open_file name] is what
    [open(name, "r", encoding="utf-8")] gives: the stream, or the
    exception it raises; [stdin] is the standard input.  The [try]
    encloses both the [open] and the call of [run_stream], and its
    handler catches [OSError] only.  Printing does not fail. *)
Definition main (open_file : string -> io_error + source)
    (stdin : source) (argv : list string) : outcome :=
  let '(visual, filenames) :=
    List.fold_left
      (fun '(visual, filenames) arg =>
         if Py.contains ["--visual"; "-v"] arg then (true, filenames)
         else (visual, (filenames ++ [arg])%list))
      argv (false, []) in
  match filenames with
  | filename :: _ =>
      match open_file filename with
      | inr f =>
          match run_stream_source f visual with
          | (None, printed) => mkOutcome (Returned 0) printed []
          | (Some (OSError e), printed) =>
              mkOutcome (Returned 1) printed
                ["Error opening file '" ++ filename ++ "': " ++ e]
          | (Some (OtherError e), printed) =>
              mkOutcome (Raised (OtherError e)) printed []
          end
      | inl (OSError e) =>
          mkOutcome (Returned 1) []
            ["Error opening file '" ++ filename ++ "': " ++ e]
      | inl (OtherError e) => mkOutcome (Raised (OtherError e)) [] []
      end
  | [] =>
      match run_stream_source stdin visual with
      | (None, printed) => mkOutcome (Returned 0) printed []
      | (Some e, printed) => mkOutcome (Raised e) printed []
      end
  end.

(** [c] run [n] times in a row. *)
Fixpoint iterate (n : nat) (c : M unit) : M unit :=
  match n with
  | O => ret tt
  | S n' => c ;; iterate n' c
  end.

(** [l] is [l'] with some entries left out. *)
Inductive subseq {A : Type} : list A -> list A -> Prop :=
| subseq_nil : subseq [] []
| subseq_skip : forall a l l', subseq l l' -> subseq l (a :: l')
| subseq_keep : forall a l l', subseq l l' -> subseq (a :: l) (a :: l').

(** A line whose first token is REPORT in some letter case. *)
Definition is_report_line (line : string) : bool :=
  match Py.split line with
  | cmd :: _ => String.eqb (Py.upper cmd) "REPORT"
  | [] => false
  end.

(** A line that is not white space only. *)
Definition is_nonblank (line : string) : bool :=
  negb (String.eqb (Py.strip line) "").

(** The state after each line of a stream, in order. *)
Fixpoint states_after (stream : list string) (st : state) : list state :=
  match stream with
  | [] => []
  | raw :: rest =>
      let st' := snd (process_line raw st) in
      st' :: states_after rest st'
  end.

(** A printed entry that begins with the character [c]. *)
Definition starts_with (c : ascii) (entry : string) : bool :=
  match entry with
  | String c' _ => Ascii.eqb c' c
  | EmptyString => false
  end.

(** The echo of a line in the visual run: a line feed, the prompt and
    the line without the white space around it. *)
Definition echo_of (raw : string) : string :=
  Py.newline ++ "> " ++ Py.strip raw.

(** An argument of the command line that asks for the visualization. *)
Definition is_flag (arg : string) : bool :=
  String.eqb arg "--visual" || String.eqb arg "-v".

(** The operations a caller has: the five transitions called directly
    with well-typed arguments, and a line of text given to
    [process_line]. *)
Inductive op : Type :=
| Place (px py : Z) (name : string)
| Move
| RotateLeft
| RotateRight
| Report
| Line (line : string).

Definition exec (o : op) : M (option string) :=
  match o with
  | Place px py name => place px py name ;; ret None
  | Move => move ;; ret None
  | RotateLeft => rotate_left ;; ret None
  | RotateRight => rotate_right ;; ret None
  | Report => report
  | Line line => process_line line
  end.

(** The operations that are a transition called directly, and the gate
    of the line interpreter: only PLACE runs on an unplaced robot. *)
Definition direct (o : op) : bool :=
  match o with
  | Line _ => false
  | _ => true
  end.

Definition gated (o : op) (st : state) : Prop :=
  match o with
  | Place _ _ _ => True
  | _ => is_placed st = true
  end.

(** The states a run can be in: the state left by any operation counts,
    whether the operation returned or raised. *)
Inductive reachable : state -> Prop :=
| reachable_init : reachable create_initial_state
| reachable_step : forall st o, reachable st -> reachable (snd (exec o st)).

(** The data model of a placed robot: integer coordinates on the table
    and one of the four directions. *)
Definition on_table (st : state) : Prop :=
  exists a b, x st = Some a /\ y st = Some b /\ 0 <= a < 5 /\ 0 <= b < 5.

Definition has_direction (st : state) : Prop :=
  exists d, facing st = Some d /\ In d DIRECTIONS.

Definition well_formed (st : state) : Prop :=
  is_placed st = true -> on_table st /\ has_direction st.

(** A line that places the robot when it is processed. *)
Definition places (line : string) : Prop :=
  is_placed (snd (process_line line create_initial_state)) = true.

(** The unit displacement of each direction. *)
Inductive unit_vector : string -> Z -> Z -> Prop :=
| unit_north : unit_vector "NORTH" 0 1
| unit_south : unit_vector "SOUTH" 0 (-1)
| unit_east : unit_vector "EAST" 1 0
| unit_west : unit_vector "WEST" (-1) 0.

(** One step counter-clockwise in the cycle NORTH, WEST, SOUTH, EAST. *)
Inductive left_of : string -> string -> Prop :=
| left_north : left_of "NORTH" "WEST"
| left_west : left_of "WEST" "SOUTH"
| left_south : left_of "SOUTH" "EAST"
| left_east : left_of "EAST" "NORTH".

(** [name] spells the upper-case word [d] with each letter in either
    case. *)
Definition lower_char (c : ascii) : ascii := ascii_of_nat (nat_of_ascii c + 32).

Inductive any_case : string -> string -> Prop :=
| any_case_nil : any_case EmptyString EmptyString
| any_case_same : forall c s t, any_case s t -> any_case (String c s) (String c t)
| any_case_lower : forall c s t,
    any_case s t -> any_case (String (lower_char c) s) (String c t).

Definition is_upper_char (c : ascii) : bool :=
  let n := nat_of_ascii c in ((65 <=? n) && (n <=? 90))%nat.

Fixpoint all_upper (s : string) : bool :=
  match s with
  | EmptyString => true
  | String c s' => is_upper_char c && all_upper s'
  end.

(** The character of a decimal digit. *)
Definition digit_char (n : Z) : ascii := ascii_of_nat (48 + Z.to_nat n).

(** The text of a position report: digit, comma, digit, comma, name. *)
Definition report_text (a b : Z) (d : string) : string :=
  String (digit_char a) ("," ++ String (digit_char b) ("," ++ d)).

(** Why a PLACE line is rejected, on the tokens of the line. *)
Inductive rejected_place : list string -> Prop :=
| missing_argument : forall cmd, rejected_place [cmd]
| wrong_field_count : forall cmd arg rest,
    List.length (Py.split_sep "," arg) <> 3%nat ->
    rejected_place (cmd :: arg :: rest)
| bad_x : forall cmd arg rest xs ys name,
    Py.split_sep "," arg = [xs; ys; name] ->
    (forall v, Py.int max_str_digits xs <> Ret v) ->
    rejected_place (cmd :: arg :: rest)
| bad_y : forall cmd arg rest xs ys name,
    Py.split_sep "," arg = [xs; ys; name] ->
    (forall v, Py.int max_str_digits ys <> Ret v) ->
    rejected_place (cmd :: arg :: rest)
| bad_direction : forall cmd arg rest xs ys name,
    Py.split_sep "," arg = [xs; ys; name] ->
    ~ In (Py.upper name) DIRECTIONS ->
    rejected_place (cmd :: arg :: rest)
| out_of_bounds : forall cmd arg rest xs ys name px py,
    Py.split_sep "," arg = [xs; ys; name] ->
    Py.int max_str_digits xs = Ret px ->
    Py.int max_str_digits ys = Ret py ->
    ~ (0 <= px < 5 /\ 0 <= py < 5) ->
    rejected_place (cmd :: arg :: rest).

(** ** Facts about the built-ins *)

Lemma split_from_cons (c : ascii) (cur s : string) :
  Py.split_from (String c cur) s <> [].
Proof.
  revert c cur.
  induction s as [|a s IH]; intros c cur; simpl.
  - discriminate.
  - destruct (Py.isspace a); [discriminate | apply IH].
Qed.

Lemma rstrip_empty_split (s : string) :
  Py.rstrip s = EmptyString ->
  forall cur, Py.split_from cur s = Py.split_from cur EmptyString.
Proof.
  induction s as [|a s IH]; simpl; intros H cur.
  - reflexivity.
  - destruct (Py.rstrip s) eqn:E; [|discriminate].
    destruct (Py.isspace a); [|discriminate].
    rewrite (IH eq_refl EmptyString).
    destruct cur; reflexivity.
Qed.

Lemma split_from_step (c : ascii) (cur s : string) :
  Py.split_from cur (String c s) =
  if Py.isspace c then
    match cur with
    | EmptyString => Py.split_from EmptyString s
    | _ => cur :: Py.split_from EmptyString s
    end
  else Py.split_from (cur ++ String c EmptyString) s.
Proof. reflexivity. Qed.

Lemma split_from_rstrip (s cur : string) :
  Py.split_from cur (Py.rstrip s) = Py.split_from cur s.
Proof.
  revert cur.
  induction s as [|a s IH]; intros cur.
  - reflexivity.
  - cbn [Py.rstrip].
    destruct (Py.rstrip s) as [|b r] eqn:E.
    + destruct (Py.isspace a) eqn:Ea.
      * symmetry. apply rstrip_empty_split.
        cbn [Py.rstrip]. rewrite E, Ea. reflexivity.
      * cbn [Py.split_from]. rewrite Ea.
        now rewrite (rstrip_empty_split s E).
    + rewrite (split_from_step a cur (String b r)), (split_from_step a cur s), !IH.
      reflexivity.
Qed.

Lemma split_lstrip (s : string) :
  Py.split (Py.lstrip s) = Py.split s.
Proof.
  unfold Py.split.
  induction s as [|a s IH]; [reflexivity|].
  cbn [Py.lstrip Py.split_from].
  destruct (Py.isspace a) eqn:Ea; [exact IH|].
  cbn [Py.split_from]. now rewrite Ea.
Qed.

Lemma split_strip (s : string) : Py.split (Py.strip s) = Py.split s.
Proof.
  unfold Py.strip, Py.split at 1.
  rewrite split_from_rstrip. apply split_lstrip.
Qed.

Lemma split_nil_lstrip (s : string) :
  Py.split s = [] -> Py.lstrip s = EmptyString.
Proof.
  unfold Py.split.
  induction s as [|a s IH]; [reflexivity|].
  cbn [Py.lstrip Py.split_from].
  destruct (Py.isspace a); [exact IH|].
  intros H. now apply split_from_cons in H.
Qed.

Lemma strip_empty_iff (s : string) :
  Py.strip s = EmptyString <-> Py.split s = [].
Proof.
  split; intros H.
  - rewrite <- split_strip, H. reflexivity.
  - unfold Py.strip. now rewrite (split_nil_lstrip s H).
Qed.

Lemma rstrip_rstrip_char (s : string) :
  Py.rstrip (Py.rstrip_char "010" s) = Py.rstrip s.
Proof.
  induction s as [|a s IH]; [reflexivity|].
  cbn [Py.rstrip_char Py.rstrip].
  destruct (Py.rstrip_char "010" s) as [|b r] eqn:E.
  - rewrite <- IH. cbn [Py.rstrip].
    destruct (Ascii.eqb_spec a "010") as [->|_]; [reflexivity|].
    cbn [Py.rstrip]. reflexivity.
  - rewrite <- IH. reflexivity.
Qed.

Lemma lstrip_rstrip_char (s : string) :
  Py.lstrip (Py.rstrip_char "010" s) = Py.rstrip_char "010" (Py.lstrip s).
Proof.
  induction s as [|a s IH]; [reflexivity|].
  cbn [Py.lstrip].
  destruct (Py.isspace a) eqn:Ea.
  - rewrite <- IH. cbn [Py.rstrip_char].
    destruct (Py.rstrip_char "010" s) as [|b r].
    + destruct (Ascii.eqb a "010"); cbn [Py.lstrip]; now rewrite ?Ea.
    + cbn [Py.lstrip]. now rewrite Ea.
  - cbn [Py.rstrip_char].
    destruct (Py.rstrip_char "010" s) as [|b r].
    + destruct (Ascii.eqb_spec a "010") as [->|_]; [discriminate Ea|].
      cbn [Py.lstrip]. now rewrite Ea.
    + cbn [Py.lstrip]. now rewrite Ea.
Qed.

Lemma strip_rstrip_char (s : string) :
  Py.strip (Py.rstrip_char "010" s) = Py.strip s.
Proof.
  unfold Py.strip.
  now rewrite lstrip_rstrip_char, rstrip_rstrip_char.
Qed.

(** ** The transitions, run on a state *)

Lemma contains_In (l : list string) (v : string) :
  Py.contains l v = true <-> In v l.
Proof.
  unfold Py.contains. rewrite existsb_exists. split.
  - intros (s & Hin & He). apply String.eqb_eq in He. now subst.
  - intros H. exists v. split; [exact H | apply String.eqb_refl].
Qed.

Lemma is_valid_position_spec (a b : Z) :
  is_valid_position a b = true <-> 0 <= a < 5 /\ 0 <= b < 5.
Proof.
  unfold is_valid_position, TABLE_WIDTH, TABLE_HEIGHT.
  rewrite !andb_true_iff, !Z.leb_le, !Z.ltb_lt. lia.
Qed.

Lemma place_run (px py : Z) (name : string) (st : state) :
  place px py name st =
  (Ret tt,
   if Py.contains DIRECTIONS (Py.upper name) && is_valid_position px py
   then mkState (Some px) (Some py) (Some (Py.upper name)) true
   else st).
Proof.
  unfold place.
  destruct (Py.contains DIRECTIONS (Py.upper name));
    destruct (is_valid_position px py); reflexivity.
Qed.

Lemma move_unplaced (st : state) :
  is_placed st = false -> move st = (Ret tt, st).
Proof.
  intros H. unfold move, bind, get. rewrite H. reflexivity.
Qed.

Lemma move_run (a b dx dy : Z) (d : string) :
  unit_vector d dx dy ->
  move (mkState (Some a) (Some b) (Some d) true) =
  (Ret tt,
   if is_valid_position (a + dx) (b + dy)
   then mkState (Some (a + dx)) (Some (b + dy)) (Some d) true
   else mkState (Some a) (Some b) (Some d) true).
Proof.
  intros H. destruct H; unfold move, bind, get, add, ret; cbn;
    match goal with |- context [is_valid_position ?u ?v] =>
      destruct (is_valid_position u v) end; reflexivity.
Qed.

(** Whatever the state holds, [move] leaves it as it was or leaves the
    robot at a position on the table, with nothing else written. *)
Lemma move_any (st : state) :
  snd (move st) = st \/
  exists a b, snd (move st) = mkState (Some a) (Some b) (facing st) (is_placed st)
              /\ 0 <= a < 5 /\ 0 <= b < 5.
Proof.
  destruct st as [[a|] [b|] f [|]]; try (left; reflexivity).
  - unfold move, bind, get, add, ret. cbn.
    destruct (Py.eq_str f "NORTH"); [|destruct (Py.eq_str f "SOUTH");
      [|destruct (Py.eq_str f "EAST"); [|destruct (Py.eq_str f "WEST")]]];
    cbn;
    match goal with |- context [is_valid_position ?u ?v] =>
      destruct (is_valid_position u v) eqn:E end; cbn;
    try (left; reflexivity);
    right; apply is_valid_position_spec in E; eauto.
  - unfold move, bind, get, add, ret. cbn.
    destruct (Py.eq_str f "NORTH"); [|destruct (Py.eq_str f "SOUTH");
      [|destruct (Py.eq_str f "EAST"); [|destruct (Py.eq_str f "WEST")]]];
    left; reflexivity.
  - unfold move, bind, get, add, ret. cbn.
    destruct (Py.eq_str f "NORTH"); [|destruct (Py.eq_str f "SOUTH");
      [|destruct (Py.eq_str f "EAST"); [|destruct (Py.eq_str f "WEST")]]];
    left; reflexivity.
  - unfold move, bind, get, add, ret. cbn.
    destruct (Py.eq_str f "NORTH"); [|destruct (Py.eq_str f "SOUTH");
      [|destruct (Py.eq_str f "EAST"); [|destruct (Py.eq_str f "WEST")]]];
    left; reflexivity.
Qed.

Lemma direction_cases (d : string) :
  In d DIRECTIONS <-> d = "NORTH" \/ d = "EAST" \/ d = "SOUTH" \/ d = "WEST".
Proof.
  unfold DIRECTIONS. cbn [In].
  intuition congruence.
Qed.

Lemma rotate_unplaced (st : state) :
  is_placed st = false ->
  rotate_left st = (Ret tt, st) /\ rotate_right st = (Ret tt, st).
Proof.
  intros H. unfold rotate_left, rotate_right, bind, get. rewrite H.
  split; reflexivity.
Qed.

Lemma rotate_left_run (a b : option Z) (d d' : string) :
  left_of d d' ->
  rotate_left (mkState a b (Some d) true) = (Ret tt, mkState a b (Some d') true).
Proof. intros H. destruct H; reflexivity. Qed.

Lemma rotate_right_run (a b : option Z) (d d' : string) :
  left_of d' d ->
  rotate_right (mkState a b (Some d) true) = (Ret tt, mkState a b (Some d') true).
Proof. intros H. destruct H; reflexivity. Qed.

Lemma left_of_total (d : string) :
  In d DIRECTIONS ->
  exists l r, left_of d l /\ left_of r d /\ In l DIRECTIONS /\ In r DIRECTIONS.
Proof.
  intros H. apply direction_cases in H.
  destruct H as [-> | [-> | [-> | ->]]];
    [exists "WEST", "EAST" | exists "NORTH", "SOUTH"
    |exists "EAST", "WEST" | exists "SOUTH", "NORTH"];
    repeat split; solve [constructor | apply direction_cases; auto 6].
Qed.

(** A rotation writes the facing and nothing else, in every state. *)
Lemma rotate_frame (st : state) :
  (exists r f, rotate_left st = (r, mkState (x st) (y st) f (is_placed st))) /\
  (exists r f, rotate_right st = (r, mkState (x st) (y st) f (is_placed st))).
Proof.
  unfold rotate_left, rotate_right, bind, get, lift, set_facing, ret.
  destruct st as [a b f p].
  cbv beta iota delta [x y facing is_placed].
  destruct p; cbv beta iota delta [negb]; [|split; eauto].
  destruct (Py.index DIRECTIONS f) as [idx|e]; [|split; eauto].
  split;
    match goal with |- context [Py.getitem DIRECTIONS ?i] =>
      destruct (Py.getitem DIRECTIONS i) end; eauto.
Qed.

Lemma report_run (st : state) :
  report st =
  (if is_placed st then
     match Py.format_int max_str_digits (x st) with
     | Raise e => Raise e
     | Ret x_text =>
         match Py.format_int max_str_digits (y st) with
         | Raise e => Raise e
         | Ret y_text =>
             Ret (Some (x_text ++ "," ++ y_text ++ "," ++ Py.format_str (facing st)))
         end
     end
   else Ret None, st).
Proof.
  unfold report, bind, get, lift, ret.
  destruct (is_placed st); cbn [negb]; [|reflexivity].
  destruct (Py.format_int max_str_digits (x st)); [|reflexivity].
  destruct (Py.format_int max_str_digits (y st)); reflexivity.
Qed.

(** [report] stores nothing, also when it raises. *)
Lemma report_state (st : state) : snd (report st) = st.
Proof. now rewrite report_run. Qed.

Lemma str_int_digit (n : Z) :
  0 <= n < 5 -> Py.str_int max_str_digits n = Ret (String (digit_char n) EmptyString).
Proof.
  intros H.
  assert (n = 0 \/ n = 1 \/ n = 2 \/ n = 3 \/ n = 4) as C by lia.
  destruct C as [-> | [-> | [-> | [-> | ->]]]];
    unfold Py.str_int; cbn; destruct max_str_digits as [|[|m]]; reflexivity.
Qed.

Lemma report_placed (a b : Z) (d : string) :
  0 <= a < 5 /\ 0 <= b < 5 ->
  report (mkState (Some a) (Some b) (Some d) true)
  = (Ret (Some (report_text a b d)), mkState (Some a) (Some b) (Some d) true).
Proof.
  intros [Ha Hb]. rewrite report_run.
  cbn [is_placed x y facing Py.format_int Py.format_str].
  now rewrite (str_int_digit a Ha), (str_int_digit b Hb).
Qed.

Lemma report_unplaced (st : state) :
  is_placed st = false -> report st = (Ret None, st).
Proof. intros P. now rewrite report_run, P. Qed.


(** ** The line interpreter, on the tokens of the line *)

Lemma int_raises_ValueError (s : string) (e : exn) :
  Py.int max_str_digits s = Raise e -> e = ValueError.
Proof.
  unfold Py.int.
  destruct (match Py.int_rstrip (Py.int_lstrip s) with
            | String "+" r => (false, r)
            | String "-" r => (true, r)
            | _ => (false, Py.int_rstrip (Py.int_lstrip s))
            end) as [negative digits].
  destruct (Py.int_digits digits 0 0 true) as [[v n]|]; [|congruence].
  destruct ((0 <? max_str_digits) && (max_str_digits <? n))%nat; congruence.
Qed.

Lemma getitem_0 {A : Type} (a : A) (l : list A) : Py.getitem (a :: l) 0 = Ret a.
Proof.
  unfold Py.getitem. cbn [Z.ltb Z.compare].
  replace (0 <? Z.of_nat (List.length (a :: l))) with true
    by (symmetry; apply Z.ltb_lt; cbn [List.length]; lia).
  replace (Z.of_nat (List.length (a :: l)) <=? 0) with false
    by (symmetry; apply Z.leb_gt; cbn [List.length]; lia).
  reflexivity.
Qed.

Lemma getitem_1 {A : Type} (a b : A) (l : list A) :
  Py.getitem (a :: b :: l) 1 = Ret b.
Proof.
  unfold Py.getitem. cbn [Z.ltb Z.compare].
  replace (Z.of_nat (List.length (a :: b :: l)) <=? 1) with false
    by (symmetry; apply Z.leb_gt; cbn [List.length]; lia).
  reflexivity.
Qed.

Lemma process_line_blank (line : string) (st : state) :
  Py.split line = [] -> process_line line st = (Ret None, st).
Proof.
  intros H. apply strip_empty_iff in H.
  unfold process_line. rewrite H. reflexivity.
Qed.

Lemma strip_eqb_false (line cmd : string) (rest : list string) :
  Py.split line = cmd :: rest -> String.eqb (Py.strip line) "" = false.
Proof.
  intros H. apply String.eqb_neq. intros E.
  apply strip_empty_iff in E. congruence.
Qed.

Lemma process_line_place_missing (line cmd : string) (st : state) :
  Py.split line = [cmd] -> Py.upper cmd = "PLACE" ->
  process_line line st = (Ret None, st).
Proof.
  intros H U. unfold process_line.
  rewrite (strip_eqb_false _ _ _ H), split_strip, H.
  unfold bind, lift. cbn. rewrite U. reflexivity.
Qed.

Lemma process_line_place (line cmd arg : string) (rest : list string) (st : state) :
  Py.split line = cmd :: arg :: rest -> Py.upper cmd = "PLACE" ->
  process_line line st =
  match Py.split_sep "," arg with
  | [xs; ys; name] =>
      match Py.int max_str_digits xs, Py.int max_str_digits ys with
      | Ret px, Ret py => (Ret None, snd (place px py name st))
      | _, _ => (Ret None, st)
      end
  | _ => (Ret None, st)
  end.
Proof.
  intros H U. unfold process_line.
  rewrite (strip_eqb_false _ _ _ H), split_strip, H.
  unfold bind, lift, try_except_ValueError, ret.
  rewrite getitem_0, getitem_1, U.
  cbn -[Py.split_sep Py.int place].
  destruct (Py.split_sep "," arg) as [|xs [|ys [|name [|extra fields]]]];
    try reflexivity.
  cbn -[Py.int place].
  destruct (Py.int max_str_digits xs) as [px|e] eqn:Ex.
  - destruct (Py.int max_str_digits ys) as [py|e] eqn:Ey.
    + rewrite place_run. reflexivity.
    + apply int_raises_ValueError in Ey. subst e. reflexivity.
  - apply int_raises_ValueError in Ex. subst e. reflexivity.
Qed.

Lemma process_line_other (line cmd : string) (rest : list string) (st : state) :
  Py.split line = cmd :: rest -> Py.upper cmd <> "PLACE" ->
  process_line line st =
  if is_placed st then
    if String.eqb (Py.upper cmd) "MOVE" then (move ;; ret None) st
    else if String.eqb (Py.upper cmd) "LEFT" then (rotate_left ;; ret None) st
    else if String.eqb (Py.upper cmd) "RIGHT" then (rotate_right ;; ret None) st
    else if String.eqb (Py.upper cmd) "REPORT" then report st
    else (Ret None, st)
  else (Ret None, st).
Proof.
  intros H U. unfold process_line.
  rewrite (strip_eqb_false _ _ _ H), split_strip, H.
  apply String.eqb_neq in U.
  unfold bind at 1. unfold lift. rewrite getitem_0, U.
  unfold bind at 1. unfold get.
  destruct (is_placed st); [|reflexivity].
  cbv beta iota delta [negb].
  repeat match goal with |- context [String.eqb ?u ?v] =>
    destruct (String.eqb u v) end; reflexivity.
Qed.

Lemma exec_place (px py : Z) (name : string) (st : state) :
  exec (Place px py name) st = (Ret None, snd (place px py name st)).
Proof. cbn [exec]. unfold bind. rewrite place_run. reflexivity. Qed.

(** A line does nothing, or does what one of the five transitions does;
    the four that are not PLACE run only on a placed robot. *)
Lemma process_line_cases (line : string) (st : state) :
  process_line line st = (Ret None, st) \/
  exists o, direct o = true /\ gated o st /\ process_line line st = exec o st.
Proof.
  destruct (Py.split line) as [|cmd rest] eqn:H.
  - left. now apply process_line_blank.
  - destruct (String.eqb_spec (Py.upper cmd) "PLACE") as [U|U].
    + destruct rest as [|arg rest].
      * left. now apply process_line_place_missing with cmd.
      * rewrite (process_line_place _ _ _ _ st H U).
        destruct (Py.split_sep "," arg) as [|xs [|ys [|name [|extra fields]]]];
          auto.
        destruct (Py.int max_str_digits xs) as [px|]; auto.
        destruct (Py.int max_str_digits ys) as [py|]; auto.
        right. exists (Place px py name).
        rewrite exec_place. repeat split.
    + rewrite (process_line_other _ _ _ st H U).
      destruct (is_placed st) eqn:P; auto.
      destruct (String.eqb (Py.upper cmd) "MOVE");
        [right; exists Move; repeat split; assumption|].
      destruct (String.eqb (Py.upper cmd) "LEFT");
        [right; exists RotateLeft; repeat split; assumption|].
      destruct (String.eqb (Py.upper cmd) "RIGHT");
        [right; exists RotateRight; repeat split; assumption|].
      destruct (String.eqb (Py.upper cmd) "REPORT");
        [right; exists Report; repeat split; assumption|].
      now left.
Qed.

(** ** The data model is an invariant *)

Lemma placed_shape (st : state) :
  well_formed st -> is_placed st = true ->
  exists a b d, st = mkState (Some a) (Some b) (Some d) true
                /\ (0 <= a < 5 /\ 0 <= b < 5) /\ In d DIRECTIONS.
Proof.
  intros W P. destruct (W P) as [(a & b & Ha & Hb & Hab) (d & Hd & Hin)].
  exists a, b, d. destruct st as [sx sy sf sp]. cbn in *. subst.
  repeat split; tauto.
Qed.

Lemma unit_vector_total (d : string) :
  In d DIRECTIONS -> exists dx dy, unit_vector d dx dy.
Proof.
  intros H. apply direction_cases in H.
  destruct H as [-> | [-> | [-> | ->]]]; eauto using unit_vector.
Qed.

Lemma well_formed_placed (a b : Z) (d : string) :
  0 <= a < 5 /\ 0 <= b < 5 -> In d DIRECTIONS ->
  well_formed (mkState (Some a) (Some b) (Some d) true).
Proof.
  intros Hab Hd _. split.
  - exists a, b. cbn. tauto.
  - exists d. cbn. tauto.
Qed.

Lemma place_well_formed (px py : Z) (name : string) (st : state) :
  well_formed st -> well_formed (snd (place px py name st)).
Proof.
  intros W. rewrite place_run. cbn [snd].
  destruct (Py.contains DIRECTIONS (Py.upper name)) eqn:C; [|exact W].
  destruct (is_valid_position px py) eqn:V; [|exact W].
  cbn [andb]. apply well_formed_placed.
  - now apply is_valid_position_spec.
  - now apply contains_In.
Qed.

(** On a well-formed state no direct transition raises, and each one
    leaves a well-formed state. *)
Lemma direct_well_formed (o : op) (st : state) :
  direct o = true -> well_formed st ->
  exists r, fst (exec o st) = Ret r /\ well_formed (snd (exec o st)).
Proof.
  intros D W. destruct o as [px py name| | | | |line]; try discriminate D.
  - rewrite exec_place. cbn [fst snd]. eauto using place_well_formed.
  - cbn [exec]. unfold bind. destruct (is_placed st) eqn:P.
    + destruct (placed_shape st W P) as (a & b & d & -> & Hab & Hd).
      destruct (unit_vector_total d Hd) as (dx & dy & Hv).
      rewrite (move_run a b dx dy d Hv). cbn [fst snd ret].
      exists None. split; [reflexivity|].
      destruct (is_valid_position (a + dx) (b + dy)) eqn:V; [|exact W].
      apply well_formed_placed; [now apply is_valid_position_spec | exact Hd].
    + rewrite (move_unplaced st P). cbn. eauto.
  - cbn [exec]. unfold bind. destruct (is_placed st) eqn:P.
    + destruct (placed_shape st W P) as (a & b & d & -> & Hab & Hd).
      destruct (left_of_total d Hd) as (l & r & Hl & Hr & Hlin & Hrin).
      rewrite (rotate_left_run _ _ d l Hl). cbn [fst snd ret].
      exists None. split; [reflexivity|]. now apply well_formed_placed.
    + rewrite (proj1 (rotate_unplaced st P)). cbn. eauto.
  - cbn [exec]. unfold bind. destruct (is_placed st) eqn:P.
    + destruct (placed_shape st W P) as (a & b & d & -> & Hab & Hd).
      destruct (left_of_total d Hd) as (l & r & Hl & Hr & Hlin & Hrin).
      rewrite (rotate_right_run _ _ d r Hr). cbn [fst snd ret].
      exists None. split; [reflexivity|]. now apply well_formed_placed.
    + rewrite (proj2 (rotate_unplaced st P)). cbn. eauto.
  - cbn [exec]. destruct (is_placed st) eqn:P.
    + destruct (placed_shape st W P) as (a & b & d & E & Hab & Hd).
      rewrite E in W |- *. rewrite (report_placed a b d Hab).
      cbn [fst snd]. eauto.
    + rewrite (report_unplaced st P). cbn [fst snd]. eauto.
Qed.

Lemma exec_well_formed (o : op) (st : state) :
  well_formed st ->
  exists r, fst (exec o st) = Ret r /\ well_formed (snd (exec o st)).
Proof.
  intros W. destruct (direct o) eqn:D; [now apply direct_well_formed|].
  destruct o as [| | | | |line]; try discriminate D.
  cbn [exec].
  destruct (process_line_cases line st) as [E|(o & Do & _ & E)]; rewrite E.
  - cbn. eauto.
  - now apply direct_well_formed.
Qed.

Lemma initial_well_formed : well_formed create_initial_state.
Proof. intros P. discriminate P. Qed.

Lemma reachable_well_formed (st : state) : reachable st -> well_formed st.
Proof.
  induction 1 as [|st o _ IH].
  - exact initial_well_formed.
  - now destruct (exec_well_formed o st IH) as (r & _ & W).
Qed.

(** From a reachable state every operation returns: nothing raises. *)
Lemma exec_reachable_returns (st : state) (o : op) :
  reachable st -> exists r, fst (exec o st) = Ret r.
Proof.
  intros R.
  destruct (exec_well_formed o st (reachable_well_formed st R)) as (r & E & _).
  now exists r.
Qed.

(** ** The table bounds *)

(** C1: in every state reachable from the initial state by the
    transitions and by processed lines, a placed robot has integer
    coordinates with 0 <= x < 5 and 0 <= y < 5; a PLACE off the table and
    a MOVE whose target is off the table return with the state exactly
    as it was, and a line does nothing or does what one transition
    does. *)
Theorem bounds_invariant (st : state) :
  reachable st ->
  (is_placed st = true ->
   exists a b, x st = Some a /\ y st = Some b /\ 0 <= a < 5 /\ 0 <= b < 5)
  /\ (forall px py name,
        ~ (0 <= px < 5 /\ 0 <= py < 5) -> place px py name st = (Ret tt, st))
  /\ (forall a b d dx dy,
        is_placed st = true -> x st = Some a -> y st = Some b ->
        facing st = Some d -> unit_vector d dx dy ->
        ~ (0 <= a + dx < 5 /\ 0 <= b + dy < 5) -> move st = (Ret tt, st))
  /\ (forall line,
        process_line line st = (Ret None, st) \/
        exists o, direct o = true /\ process_line line st = exec o st).
Proof.
  intros R. repeat split.
  - intros P. exact (proj1 (reachable_well_formed st R P)).
  - intros px py name Hout. rewrite place_run.
    destruct (is_valid_position px py) eqn:V.
    + apply is_valid_position_spec in V. contradiction.
    + now rewrite andb_false_r.
  - intros a b d dx dy P Hx Hy Hf Hv Hout.
    destruct st as [sx sy sf sp]. cbn in P, Hx, Hy, Hf. subst.
    rewrite (move_run a b dx dy d Hv).
    destruct (is_valid_position (a + dx) (b + dy)) eqn:V; [|reflexivity].
    apply is_valid_position_spec in V. contradiction.
  - intros line.
    destruct (process_line_cases line st) as [E|(o & D & _ & E)]; eauto.
Qed.

(** C2: on a placed robot with coordinates (a, b) facing d, [move]
    writes (a + dx, b + dy) for the unit vector (dx, dy) of d (NORTH
    (0,1), SOUTH (0,-1), EAST (1,0), WEST (-1,0)) and leaves facing and
    the placed flag, when that target is on the table, and leaves the
    whole state when it is not; in any state [move] leaves the state or
    leaves a position on the table; on an unplaced robot it does
    nothing. *)
Theorem move_unit_step (st : state) :
  (forall a b d dx dy,
     is_placed st = true -> x st = Some a -> y st = Some b ->
     facing st = Some d -> unit_vector d dx dy ->
     (0 <= a + dx < 5 /\ 0 <= b + dy < 5 /\
      move st = (Ret tt, mkState (Some (a + dx)) (Some (b + dy)) (Some d) true))
     \/ (~ (0 <= a + dx < 5 /\ 0 <= b + dy < 5) /\ move st = (Ret tt, st)))
  /\ (snd (move st) = st \/
      exists a b, x (snd (move st)) = Some a /\ y (snd (move st)) = Some b
                  /\ 0 <= a < 5 /\ 0 <= b < 5)
  /\ (is_placed st = false -> move st = (Ret tt, st)).
Proof.
  repeat split.
  - intros a b d dx dy P Hx Hy Hf Hv.
    destruct st as [sx sy sf sp]. cbn in P, Hx, Hy, Hf. subst.
    rewrite (move_run a b dx dy d Hv).
    destruct (is_valid_position (a + dx) (b + dy)) eqn:V.
    + left. apply is_valid_position_spec in V. tauto.
    + right. split; [|reflexivity].
      intros H. apply is_valid_position_spec in H. congruence.
  - destruct (move_any st) as [E|(a & b & E & Hab)]; [now left|right].
    exists a, b. rewrite E. cbn. tauto.
  - apply move_unplaced.
Qed.

(** ** Placing and reporting *)

Lemma upper_char_letter (c : ascii) :
  is_upper_char c = true ->
  Py.upper_char c = c /\ Py.upper_char (lower_char c) = c.
Proof.
  destruct c as [[] [] [] [] [] [] [] []]; intros H;
    try discriminate H; split; reflexivity.
Qed.

Lemma any_case_upper (name d : string) :
  any_case name d -> all_upper d = true -> Py.upper name = d.
Proof.
  induction 1 as [|c s t _ IH|c s t _ IH]; cbn [all_upper Py.upper]; intros U.
  - reflexivity.
  - apply andb_true_iff in U. destruct U as [Uc Ut].
    now rewrite (proj1 (upper_char_letter c Uc)), IH.
  - apply andb_true_iff in U. destruct U as [Uc Ut].
    now rewrite (proj2 (upper_char_letter c Uc)), IH.
Qed.

Lemma directions_upper (d : string) : In d DIRECTIONS -> all_upper d = true.
Proof.
  intros H. apply direction_cases in H.
  destruct H as [-> | [-> | [-> | ->]]]; reflexivity.
Qed.

(** C3: for 0 <= x < 5, 0 <= y < 5 and a direction name written in any
    letter case, [place] returns with the robot placed at (x, y) facing
    the upper-case name, and [report] then returns the digit of x, a
    comma, the digit of y, a comma and the upper-case name; on an
    unplaced robot [report] returns None. *)
Theorem place_then_report (st : state) (px py : Z) (name d : string) :
  0 <= px < 5 -> 0 <= py < 5 -> In d DIRECTIONS -> any_case name d ->
  place px py name st = (Ret tt, mkState (Some px) (Some py) (Some d) true)
  /\ (place px py name ;; report) st =
     (Ret (Some (String (digit_char px)
                   ("," ++ String (digit_char py) ("," ++ d)))),
      mkState (Some px) (Some py) (Some d) true)
  /\ (forall st', is_placed st' = false -> report st' = (Ret None, st')).
Proof.
  intros Hx Hy Hd Hc.
  assert (place px py name st =
          (Ret tt, mkState (Some px) (Some py) (Some d) true)) as E.
  { rewrite place_run, (any_case_upper name d Hc (directions_upper d Hd)).
    rewrite (proj2 (contains_In DIRECTIONS d) Hd).
    now rewrite (proj2 (is_valid_position_spec px py) (conj Hx Hy)). }
  repeat split.
  - exact E.
  - unfold bind. rewrite E, report_run.
    cbn [is_placed x y facing Py.format_int Py.format_str].
    now rewrite (str_int_digit px Hx), (str_int_digit py Hy).
  - intros st' P. rewrite report_run, P. reflexivity.
Qed.

(** ** Rejected PLACE lines *)

(** C4: a line whose first token is PLACE in any letter case and that
    has no argument token, or whose argument has not exactly three
    comma-separated fields, or a coordinate that [int] does not accept,
    or a direction that is not one of the four, or coordinates off the
    table, returns None without raising and leaves the state exactly as
    it was; every PLACE line returns None without raising. *)
Theorem place_rejected_silently
    (st : state) (line cmd : string) (rest : list string) :
  Py.split line = cmd :: rest -> Py.upper cmd = "PLACE" ->
  (rejected_place (cmd :: rest) -> process_line line st = (Ret None, st))
  /\ fst (process_line line st) = Ret None.
Proof.
  intros H U. split.
  - intros Rej. inversion Rej as
      [c | c arg r Hn | c arg r xs ys name Hs Hx | c arg r xs ys name Hs Hy
      | c arg r xs ys name Hs Hd | c arg r xs ys name px py Hs Hx Hy Hout];
      subst.
    + now apply process_line_place_missing with cmd.
    + rewrite (process_line_place _ _ _ _ st H U).
      destruct (Py.split_sep "," arg) as [|xs [|ys [|name [|extra fields]]]];
        try reflexivity.
      now contradiction Hn.
    + rewrite (process_line_place _ _ _ _ st H U), Hs.
      destruct (Py.int max_str_digits xs) as [v|e] eqn:E; [|reflexivity].
      now contradiction (Hx v).
    + rewrite (process_line_place _ _ _ _ st H U), Hs.
      destruct (Py.int max_str_digits xs) as [px|e]; [|reflexivity].
      destruct (Py.int max_str_digits ys) as [v|e] eqn:E; [|reflexivity].
      now contradiction (Hy v).
    + rewrite (process_line_place _ _ _ _ st H U), Hs.
      destruct (Py.int max_str_digits xs) as [px|e]; [|reflexivity].
      destruct (Py.int max_str_digits ys) as [py|e]; [|reflexivity].
      rewrite place_run.
      destruct (Py.contains DIRECTIONS (Py.upper name)) eqn:C; [|reflexivity].
      apply contains_In in C. contradiction.
    + rewrite (process_line_place _ _ _ _ st H U), Hs, Hx, Hy, place_run.
      destruct (is_valid_position px py) eqn:V.
      * apply is_valid_position_spec in V. contradiction.
      * now rewrite andb_false_r.
  - destruct rest as [|arg rest].
    + now rewrite (process_line_place_missing _ _ st H U).
    + rewrite (process_line_place _ _ _ _ st H U).
      destruct (Py.split_sep "," arg) as [|xs [|ys [|name [|extra fields]]]];
        try reflexivity.
      destruct (Py.int max_str_digits xs) as [px|e]; [|reflexivity].
      destruct (Py.int max_str_digits ys) as [py|e]; reflexivity.
Qed.

(** ** Before the first placement *)

Lemma process_line_rstrip (raw : string) :
  process_line (Py.rstrip_char "010" raw) = process_line raw.
Proof. unfold process_line. now rewrite strip_rstrip_char. Qed.

Lemma not_places_unplaced (line : string) (st : state) :
  ~ places line -> is_placed st = false ->
  process_line line st = (Ret None, st).
Proof.
  unfold places. intros N P.
  destruct (Py.split line) as [|cmd rest] eqn:H.
  - now apply process_line_blank.
  - destruct (String.eqb_spec (Py.upper cmd) "PLACE") as [U|U].
    + destruct rest as [|arg rest].
      * now apply process_line_place_missing with cmd.
      * rewrite (process_line_place _ _ _ _ st H U).
        rewrite (process_line_place _ _ _ _ create_initial_state H U) in N.
        destruct (Py.split_sep "," arg) as [|xs [|ys [|name [|extra fields]]]];
          try reflexivity.
        destruct (Py.int max_str_digits xs) as [px|e]; [|reflexivity].
        destruct (Py.int max_str_digits ys) as [py|e]; [|reflexivity].
        rewrite place_run in N |- *. cbn [snd] in N |- *.
        destruct (Py.contains DIRECTIONS (Py.upper name)
                  && is_valid_position px py); [|reflexivity].
        now contradiction N.
    + rewrite (process_line_other _ _ _ st H U), P. reflexivity.
Qed.

(** C5: from an unplaced robot, a stream in which no line is a PLACE
    that places the robot prints nothing and leaves the state as it was,
    [process_line] returning None on every line; while the robot is
    unplaced a line whose first token is not PLACE changes nothing; a
    well-formed PLACE line calls [place] whether the robot is placed or
    not. *)
Theorem no_place_no_report :
  (forall stream st,
     is_placed st = false -> Forall (fun raw => ~ places raw) stream ->
     run_stream_from stream st = (Ret tt, st, [])
     /\ Forall (fun raw => process_line raw st = (Ret None, st)) stream)
  /\ (forall st line cmd rest,
        is_placed st = false ->
        Py.split line = cmd :: rest -> Py.upper cmd <> "PLACE" ->
        process_line line st = (Ret None, st))
  /\ (forall st line cmd arg rest xs ys name px py,
        Py.split line = cmd :: arg :: rest -> Py.upper cmd = "PLACE" ->
        Py.split_sep "," arg = [xs; ys; name] ->
        Py.int max_str_digits xs = Ret px ->
        Py.int max_str_digits ys = Ret py ->
        process_line line st = (place px py name ;; ret None) st).
Proof.
  split; [|split].
  - intros stream st P F. split.
    + induction F as [|raw stream N _ IH]; [reflexivity|].
      cbn [run_stream_from].
      now rewrite process_line_rstrip, (not_places_unplaced raw st N P), IH.
    + induction F as [|raw stream N _ IH]; constructor.
      * now apply not_places_unplaced.
      * exact IH.
  - intros st line cmd rest P H U.
    rewrite (process_line_other _ _ _ st H U), P. reflexivity.
  - intros st line cmd arg rest xs ys name px py H U Hs Hx Hy.
    rewrite (process_line_place _ _ _ _ st H U), Hs, Hx, Hy.
    unfold bind. rewrite place_run. reflexivity.
Qed.

(** ** Once placed, always placed *)

Lemma snd_bind_ret {A B : Type} (c : M A) (v : B) (st : state) :
  snd ((c ;; ret v) st) = snd (c st).
Proof.
  unfold bind, ret. destruct (c st) as [[a|e] st']; reflexivity.
Qed.

Lemma direct_keeps_placed (o : op) (st : state) :
  direct o = true -> is_placed st = true ->
  is_placed (snd (exec o st)) = true.
Proof.
  intros D P. destruct o as [px py name| | | | |line]; try discriminate D.
  - rewrite exec_place, place_run. cbn [snd].
    now destruct (Py.contains DIRECTIONS (Py.upper name)
                  && is_valid_position px py).
  - cbn [exec]. rewrite snd_bind_ret.
    destruct (move_any st) as [E|(a & b & E & _)]; now rewrite E.
  - cbn [exec]. rewrite snd_bind_ret.
    destruct (proj1 (rotate_frame st)) as (r & f & E). now rewrite E.
  - cbn [exec]. rewrite snd_bind_ret.
    destruct (proj2 (rotate_frame st)) as (r & f & E). now rewrite E.
  - cbn [exec]. now rewrite report_run.
Qed.

Lemma exec_keeps_placed (o : op) (st : state) :
  is_placed st = true -> is_placed (snd (exec o st)) = true.
Proof.
  intros P. destruct (direct o) eqn:D; [now apply direct_keeps_placed|].
  destruct o as [| | | | |line]; try discriminate D.
  cbn [exec].
  destruct (process_line_cases line st) as [E|(o & Do & _ & E)]; rewrite E.
  - exact P.
  - now apply direct_keeps_placed.
Qed.

(** C6: in any state with the placed flag set, every transition and
    every processed line leaves the flag set, whether it returns or
    raises, and so does a whole stream of lines. *)
Theorem placed_monotone (st : state) :
  is_placed st = true ->
  (forall o, is_placed (snd (exec o st)) = true)
  /\ (forall stream, is_placed (snd (fst (run_stream_from stream st))) = true).
Proof.
  intros P. split.
  - intros o. now apply exec_keeps_placed.
  - intros stream. revert st P.
    induction stream as [|raw stream IH]; intros st P; [exact P|].
    cbn [run_stream_from].
    pose proof (exec_keeps_placed (Line (Py.rstrip_char "010" raw)) st P) as K.
    cbn [exec] in K.
    destruct (process_line (Py.rstrip_char "010" raw) st) as [[[r|]|e] st'];
      cbn [snd] in K.
    + specialize (IH st' K).
      destruct (run_stream_from stream st') as [[res st''] printed].
      exact IH.
    + now apply IH.
    + exact K.
Qed.

(** ** Rotations *)

(** C7: on a placed robot facing one of the four directions,
    [rotate_left] then [rotate_right], and [rotate_right] then
    [rotate_left], return with the whole state as it was. *)
Theorem rotate_round_trip (st : state) (d : string) :
  is_placed st = true -> facing st = Some d -> In d DIRECTIONS ->
  (rotate_left ;; rotate_right) st = (Ret tt, st)
  /\ (rotate_right ;; rotate_left) st = (Ret tt, st).
Proof.
  intros P F Hd. destruct st as [a b f p]. cbn in P, F. subst.
  apply direction_cases in Hd.
  destruct Hd as [-> | [-> | [-> | ->]]]; split; reflexivity.
Qed.

(** C8: on a placed robot facing d, [rotate_left] writes the direction
    one step after d in the cycle NORTH, WEST, SOUTH, EAST, NORTH and
    [rotate_right] the one a step before d in it, each leaving the rest
    of the state; four [rotate_left], and four [rotate_right], return
    with the state as it was. *)
Theorem rotate_cycle (st : state) (d : string) :
  is_placed st = true -> facing st = Some d -> In d DIRECTIONS ->
  (exists l, left_of d l /\
     rotate_left st = (Ret tt, mkState (x st) (y st) (Some l) true))
  /\ (exists r, left_of r d /\
        rotate_right st = (Ret tt, mkState (x st) (y st) (Some r) true))
  /\ (rotate_left ;; rotate_left ;; rotate_left ;; rotate_left) st = (Ret tt, st)
  /\ (rotate_right ;; rotate_right ;; rotate_right ;; rotate_right) st
     = (Ret tt, st).
Proof.
  intros P F Hd. destruct st as [a b f p]. cbn in P, F. subst.
  cbn [x y].
  destruct (left_of_total d Hd) as (l & r & Hl & Hr & _ & _).
  split; [|split].
  - exists l. split; [exact Hl | now apply rotate_left_run].
  - exists r. split; [exact Hr | now apply rotate_right_run].
  - apply direction_cases in Hd.
    destruct Hd as [-> | [-> | [-> | ->]]]; split; reflexivity.
Qed.

(** ** The first token decides *)

(** C9: the line interpreter dispatches on the first token only.  On a
    placed robot, a line whose first token is MOVE, LEFT, RIGHT or REPORT
    in any letter case runs [move], [rotate_left], [rotate_right] or
    [report], whatever tokens follow: on a robot at (a, b) on the table
    facing d, the MOVE line leaves it at (a, b) plus the unit vector of d
    when that is on the table and where it was otherwise, the LEFT line
    leaves it facing the direction after d in the cycle NORTH, WEST,
    SOUTH, EAST, the RIGHT line the one before d, and the REPORT line
    returns the digits of a and b and the name d with commas between,
    leaving the state.  A PLACE line with integer coordinates on the
    table and a direction name places the robot there, whatever tokens
    follow the argument.  So a line does what the line of its first token
    alone does, and a PLACE line what the line of its first two tokens
    does; "MOVE now" moves the robot and "PLACE 1,2,NORTH junk" places it
    at (1, 2) facing NORTH. *)
Theorem first_token_dispatch :
  (forall st line cmd rest,
     Py.split line = cmd :: rest -> is_placed st = true ->
     (Py.upper cmd = "MOVE" -> process_line line st = (move ;; ret None) st)
     /\ (Py.upper cmd = "LEFT" -> process_line line st = (rotate_left ;; ret None) st)
     /\ (Py.upper cmd = "RIGHT" ->
         process_line line st = (rotate_right ;; ret None) st)
     /\ (Py.upper cmd = "REPORT" -> process_line line st = report st))
  /\ (forall a b d line cmd rest,
        0 <= a < 5 -> 0 <= b < 5 -> In d DIRECTIONS ->
        Py.split line = cmd :: rest ->
        (Py.upper cmd = "MOVE" ->
         forall dx dy, unit_vector d dx dy ->
           (0 <= a + dx < 5 /\ 0 <= b + dy < 5 /\
            process_line line (mkState (Some a) (Some b) (Some d) true)
            = (Ret None, mkState (Some (a + dx)) (Some (b + dy)) (Some d) true))
           \/ (~ (0 <= a + dx < 5 /\ 0 <= b + dy < 5) /\
               process_line line (mkState (Some a) (Some b) (Some d) true)
               = (Ret None, mkState (Some a) (Some b) (Some d) true)))
        /\ (Py.upper cmd = "LEFT" ->
            exists l, left_of d l /\
              process_line line (mkState (Some a) (Some b) (Some d) true)
              = (Ret None, mkState (Some a) (Some b) (Some l) true))
        /\ (Py.upper cmd = "RIGHT" ->
            exists r, left_of r d /\
              process_line line (mkState (Some a) (Some b) (Some d) true)
              = (Ret None, mkState (Some a) (Some b) (Some r) true))
        /\ (Py.upper cmd = "REPORT" ->
            process_line line (mkState (Some a) (Some b) (Some d) true)
            = (Ret (Some (String (digit_char a)
                            ("," ++ String (digit_char b) ("," ++ d)))),
               mkState (Some a) (Some b) (Some d) true)))
  /\ (forall st line cmd arg rest xs ys name px py,
        Py.split line = cmd :: arg :: rest -> Py.upper cmd = "PLACE" ->
        Py.split_sep "," arg = [xs; ys; name] ->
        Py.int max_str_digits xs = Ret px -> Py.int max_str_digits ys = Ret py ->
        0 <= px < 5 -> 0 <= py < 5 -> In (Py.upper name) DIRECTIONS ->
        process_line line st
        = (Ret None, mkState (Some px) (Some py) (Some (Py.upper name)) true))
  /\ (forall st line line' cmd cmd' rest,
        Py.split line = cmd :: rest -> Py.split line' = [cmd'] ->
        Py.upper cmd = Py.upper cmd' ->
        In (Py.upper cmd) ["MOVE"; "LEFT"; "RIGHT"; "REPORT"] ->
        process_line line st = process_line line' st)
  /\ (forall st line line' cmd cmd' arg rest,
        Py.split line = cmd :: arg :: rest -> Py.split line' = [cmd'; arg] ->
        Py.upper cmd = "PLACE" -> Py.upper cmd' = "PLACE" ->
        process_line line st = process_line line' st)
  /\ process_line "MOVE now" (mkState (Some 0) (Some 0) (Some "NORTH") true)
     = (Ret None, mkState (Some 0) (Some 1) (Some "NORTH") true)
  /\ process_line "PLACE 1,2,NORTH junk" create_initial_state
     = (Ret None, mkState (Some 1) (Some 2) (Some "NORTH") true).
Proof.
  assert (forall st line cmd rest,
            Py.split line = cmd :: rest -> is_placed st = true ->
            (Py.upper cmd = "MOVE" -> process_line line st = (move ;; ret None) st)
            /\ (Py.upper cmd = "LEFT" ->
                process_line line st = (rotate_left ;; ret None) st)
            /\ (Py.upper cmd = "RIGHT" ->
                process_line line st = (rotate_right ;; ret None) st)
            /\ (Py.upper cmd = "REPORT" -> process_line line st = report st))
    as Run.
  { intros st line cmd rest H P.
    repeat split; intros U;
      (assert (Py.upper cmd <> "PLACE") as N by (rewrite U; discriminate));
      rewrite (process_line_other _ _ _ st H N), P, U; reflexivity. }
  split; [exact Run|]. split; [|split; [|split; [|split; [|split]]]].
  - intros a b d line cmd rest Ha Hb Hd H.
    destruct (Run (mkState (Some a) (Some b) (Some d) true) line cmd rest H eq_refl)
      as (Rm & Rl & Rr & Rp).
    split; [|split; [|split]].
    + intros U dx dy Hv. rewrite (Rm U). unfold bind.
      rewrite (move_run a b dx dy d Hv).
      destruct (is_valid_position (a + dx) (b + dy)) eqn:V.
      * left. apply is_valid_position_spec in V. tauto.
      * right. split; [|reflexivity].
        intros C. apply is_valid_position_spec in C. congruence.
    + intros U. destruct (left_of_total d Hd) as (l & r & Hl & _).
      exists l. split; [exact Hl|]. rewrite (Rl U). unfold bind.
      now rewrite (rotate_left_run _ _ d l Hl).
    + intros U. destruct (left_of_total d Hd) as (l & r & _ & Hr & _).
      exists r. split; [exact Hr|]. rewrite (Rr U). unfold bind.
      now rewrite (rotate_right_run _ _ d r Hr).
    + intros U. rewrite (Rp U).
      exact (report_placed a b d (conj Ha Hb)).
  - intros st line cmd arg rest xs ys name px py H U Hs Hx Hy Hpx Hpy Hd.
    rewrite (process_line_place _ _ _ _ st H U), Hs, Hx, Hy, place_run.
    rewrite (proj2 (contains_In DIRECTIONS _) Hd).
    now rewrite (proj2 (is_valid_position_spec px py) (conj Hpx Hpy)).
  - intros st line line' cmd cmd' rest H H' E Hin.
    assert (Py.upper cmd <> "PLACE") as U.
    { cbn [In] in Hin. intros C. rewrite C in Hin.
      intuition discriminate. }
    rewrite (process_line_other _ _ _ st H U).
    rewrite E in U. rewrite (process_line_other _ _ _ st H' U), E.
    reflexivity.
  - intros st line line' cmd cmd' arg rest H H' U U'.
    now rewrite (process_line_place _ _ _ _ st H U),
                (process_line_place _ _ _ _ st H' U').
  - reflexivity.
  - vm_compute. destruct max_str_digits as [|[|m]]; reflexivity.
Qed.

(** ** Frame *)

(** C10: in every state [rotate_left] and [rotate_right] leave x, y and
    the placed flag as they were, and [report] leaves the whole state as
    it was. *)
Theorem rotation_and_report_frame (st : state) :
  (x (snd (rotate_left st)) = x st
   /\ y (snd (rotate_left st)) = y st
   /\ is_placed (snd (rotate_left st)) = is_placed st)
  /\ (x (snd (rotate_right st)) = x st
      /\ y (snd (rotate_right st)) = y st
      /\ is_placed (snd (rotate_right st)) = is_placed st)
  /\ snd (report st) = st.
Proof.
  destruct (rotate_frame st) as [(r & f & E) (r' & f' & E')].
  rewrite E, E', report_run. cbn. tauto.
Qed.

(** ** More on the line interpreter *)

Lemma split_rstrip_char (raw : string) :
  Py.split (Py.rstrip_char "010" raw) = Py.split raw.
Proof.
  now rewrite <- split_strip, strip_rstrip_char, split_strip.
Qed.

Lemma bind_ret_not_some {A : Type} (c : M A) (st st' : state) (r : string) :
  (c ;; ret None) st <> (Ret (Some r), st').
Proof.
  unfold bind, ret. destruct (c st) as [[a|e] st0]; congruence.
Qed.

Lemma place_line_returns_none
    (st : state) (line cmd : string) (rest : list string) :
  Py.split line = cmd :: rest -> Py.upper cmd = "PLACE" ->
  fst (process_line line st) = Ret None.
Proof.
  intros H U. destruct rest as [|arg rest].
  - now rewrite (process_line_place_missing _ _ st H U).
  - rewrite (process_line_place _ _ _ _ st H U).
    destruct (Py.split_sep "," arg) as [|xs [|ys [|name [|extra fields]]]];
      try reflexivity.
    destruct (Py.int max_str_digits xs) as [px|e]; [|reflexivity].
    destruct (Py.int max_str_digits ys) as [py|e]; reflexivity.
Qed.

(** X1: in every state, a line of white space only, and a line whose
    first token is none of PLACE, MOVE, LEFT, RIGHT, REPORT in any letter
    case, returns None without raising and leaves the state as it was. *)
Theorem unknown_or_blank_ignored (st : state) (line : string) :
  (Py.strip line = EmptyString \/
   exists cmd rest,
     Py.split line = cmd :: rest /\
     ~ In (Py.upper cmd) ["PLACE"; "MOVE"; "LEFT"; "RIGHT"; "REPORT"]) ->
  process_line line st = (Ret None, st).
Proof.
  intros [B|(cmd & rest & H & N)].
  - apply process_line_blank. now apply strip_empty_iff.
  - cbn [In] in N.
    assert (Py.upper cmd <> "PLACE") as U by (intros E; apply N; auto).
    rewrite (process_line_other _ _ _ st H U).
    destruct (is_placed st); [|reflexivity].
    destruct (String.eqb_spec (Py.upper cmd) "MOVE") as [E|_];
      [exfalso; apply N; auto|].
    destruct (String.eqb_spec (Py.upper cmd) "LEFT") as [E|_];
      [exfalso; apply N; auto|].
    destruct (String.eqb_spec (Py.upper cmd) "RIGHT") as [E|_];
      [exfalso; apply N; auto|].
    destruct (String.eqb_spec (Py.upper cmd) "REPORT") as [E|_];
      [exfalso; apply N; auto 6|].
    reflexivity.
Qed.

(** X2: in every state, when [process_line] returns a string, the first
    token of the line is REPORT in some letter case, the robot is placed,
    the state is left as it was, and the string is the one [report]
    returns. *)
Theorem output_only_from_report (st st' : state) (line r : string) :
  process_line line st = (Ret (Some r), st') ->
  st' = st /\ is_placed st = true
  /\ (exists cmd rest, Py.split line = cmd :: rest /\ Py.upper cmd = "REPORT")
  /\ report st = (Ret (Some r), st).
Proof.
  intros E.
  destruct (Py.split line) as [|cmd rest] eqn:H.
  - rewrite (process_line_blank _ st H) in E. discriminate E.
  - destruct (String.eqb_spec (Py.upper cmd) "PLACE") as [U|U].
    + pose proof (place_line_returns_none st line cmd rest H U) as F.
      rewrite E in F. discriminate F.
    + rewrite (process_line_other _ _ _ st H U) in E.
      destruct (is_placed st) eqn:P; [|discriminate E].
      destruct (String.eqb (Py.upper cmd) "MOVE");
        [now apply bind_ret_not_some in E|].
      destruct (String.eqb (Py.upper cmd) "LEFT");
        [now apply bind_ret_not_some in E|].
      destruct (String.eqb (Py.upper cmd) "RIGHT");
        [now apply bind_ret_not_some in E|].
      destruct (String.eqb_spec (Py.upper cmd) "REPORT") as [R|_];
        [|discriminate E].
      pose proof E as E'. rewrite report_run in E'.
      assert (st' = st) as -> by congruence.
      repeat split; eauto.
Qed.

(** X3: [process_line] sees a line through its tokens only: two lines
    with the same white-space-separated tokens do the same in every
    state, whatever white space stands before, between and after them. *)
Theorem same_tokens_same_effect (st : state) (line line' : string) :
  Py.split line = Py.split line' ->
  process_line line st = process_line line' st.
Proof.
  intros E.
  destruct (Py.split line') as [|cmd rest] eqn:H'.
  - now rewrite (process_line_blank _ st E), (process_line_blank _ st H').
  - destruct (String.eqb_spec (Py.upper cmd) "PLACE") as [U|U].
    + destruct rest as [|arg rest].
      * now rewrite (process_line_place_missing _ _ st E U),
                    (process_line_place_missing _ _ st H' U).
      * now rewrite (process_line_place _ _ _ _ st E U),
                    (process_line_place _ _ _ _ st H' U).
    + now rewrite (process_line_other _ _ _ st E U),
                  (process_line_other _ _ _ st H' U).
Qed.

(** *** Letter case *)

Lemma upper_char_facts (c : ascii) :
  Py.isspace (Py.upper_char c) = Py.isspace c
  /\ Py.is_digit (Py.upper_char c) = Py.is_digit c
  /\ (Py.is_digit c = true -> Py.upper_char c = c)
  /\ Ascii.eqb (Py.upper_char c) "_" = Ascii.eqb c "_"
  /\ Ascii.eqb (Py.upper_char c) "," = Ascii.eqb c ","
  /\ Py.upper_char (Py.upper_char c) = Py.upper_char c.
Proof.
  destruct c as [[] [] [] [] [] [] [] []]; vm_compute;
    repeat split; intros; congruence.
Qed.

Lemma upper_append (s t : string) :
  Py.upper (s ++ t) = Py.upper s ++ Py.upper t.
Proof.
  induction s as [|c s IH]; [reflexivity|].
  cbn. now rewrite IH.
Qed.

Lemma upper_upper (s : string) : Py.upper (Py.upper s) = Py.upper s.
Proof.
  induction s as [|c s IH]; [reflexivity|].
  cbn [Py.upper]. rewrite IH.
  now rewrite (proj2 (proj2 (proj2 (proj2 (proj2 (upper_char_facts c)))))).
Qed.

Lemma lstrip_upper (s : string) : Py.lstrip (Py.upper s) = Py.upper (Py.lstrip s).
Proof.
  induction s as [|c s IH]; [reflexivity|].
  cbn [Py.upper Py.lstrip]. rewrite (proj1 (upper_char_facts c)).
  destruct (Py.isspace c); [exact IH | reflexivity].
Qed.

Lemma rstrip_upper (s : string) : Py.rstrip (Py.upper s) = Py.upper (Py.rstrip s).
Proof.
  induction s as [|c s IH]; [reflexivity|].
  cbn [Py.upper Py.rstrip]. rewrite IH, (proj1 (upper_char_facts c)).
  destruct (Py.rstrip s); [destruct (Py.isspace c)|]; reflexivity.
Qed.

Lemma strip_upper (s : string) : Py.strip (Py.upper s) = Py.upper (Py.strip s).
Proof. unfold Py.strip. now rewrite lstrip_upper, rstrip_upper. Qed.

Lemma split_from_upper (s cur : string) :
  Py.split_from (Py.upper cur) (Py.upper s) = List.map Py.upper (Py.split_from cur s).
Proof.
  revert cur. induction s as [|c s IH]; intros cur.
  - destruct cur; reflexivity.
  - cbn [Py.upper]. rewrite !split_from_step, (proj1 (upper_char_facts c)).
    destruct (Py.isspace c).
    + destruct cur; cbn [Py.upper List.map];
        now rewrite <- (IH EmptyString).
    + rewrite <- IH, upper_append. reflexivity.
Qed.

Lemma split_upper (s : string) :
  Py.split (Py.upper s) = List.map Py.upper (Py.split s).
Proof. exact (split_from_upper s EmptyString). Qed.

Lemma split_sep_from_upper (s cur : string) :
  Py.split_sep_from "," (Py.upper cur) (Py.upper s)
  = List.map Py.upper (Py.split_sep_from "," cur s).
Proof.
  revert cur. induction s as [|c s IH]; intros cur; [reflexivity|].
  cbn [Py.upper Py.split_sep_from].
  rewrite (proj1 (proj2 (proj2 (proj2 (proj2 (upper_char_facts c)))))).
  destruct (Ascii.eqb c ",").
  - cbn [List.map]. now rewrite <- (IH EmptyString).
  - rewrite <- IH, upper_append. reflexivity.
Qed.

Lemma split_sep_upper (s : string) :
  Py.split_sep "," (Py.upper s) = List.map Py.upper (Py.split_sep "," s).
Proof. exact (split_sep_from_upper s EmptyString). Qed.

Lemma int_digits_upper (s : string) (acc : Z) (n : nat) (sep : bool) :
  Py.int_digits (Py.upper s) acc n sep = Py.int_digits s acc n sep.
Proof.
  revert acc n sep. induction s as [|c s IH]; intros acc n sep; [reflexivity|].
  cbn [Py.upper Py.int_digits].
  destruct (upper_char_facts c) as (_ & D & K & U & _).
  rewrite D, U.
  destruct (Py.is_digit c) eqn:E.
  - rewrite (K eq_refl). apply IH.
  - destruct (Ascii.eqb c "_"); [|reflexivity].
    destruct sep; [reflexivity | apply IH].
Qed.

Lemma sign_split (c : ascii) (r : string) :
  match String c r with
  | String "+" t => (false, t)
  | String "-" t => (true, t)
  | _ => (false, String c r)
  end
  = if Ascii.eqb c "+" then (false, r)
    else if Ascii.eqb c "-" then (true, r)
    else (false, String c r).
Proof. destruct c as [[] [] [] [] [] [] [] []]; reflexivity. Qed.

Lemma upper_char_sign (c : ascii) :
  Ascii.eqb (Py.upper_char c) "+" = Ascii.eqb c "+"
  /\ Ascii.eqb (Py.upper_char c) "-" = Ascii.eqb c "-".
Proof. destruct c as [[] [] [] [] [] [] [] []]; split; reflexivity. Qed.

Lemma upper_char_c_space (c : ascii) :
  Py.is_c_space (Py.upper_char c) = Py.is_c_space c.
Proof. destruct c as [[] [] [] [] [] [] [] []]; reflexivity. Qed.

Lemma int_lstrip_upper (s : string) :
  Py.int_lstrip (Py.upper s) = Py.upper (Py.int_lstrip s).
Proof.
  induction s as [|c s IH]; [reflexivity|].
  cbn [Py.upper Py.int_lstrip]. rewrite upper_char_c_space.
  destruct (Py.is_c_space c); [exact IH | reflexivity].
Qed.

Lemma int_rstrip_upper (s : string) :
  Py.int_rstrip (Py.upper s) = Py.upper (Py.int_rstrip s).
Proof.
  induction s as [|c s IH]; [reflexivity|].
  cbn [Py.upper Py.int_rstrip]. rewrite IH, upper_char_c_space.
  destruct (Py.int_rstrip s); [destruct (Py.is_c_space c)|]; reflexivity.
Qed.

Lemma int_upper (s : string) :
  Py.int max_str_digits (Py.upper s) = Py.int max_str_digits s.
Proof.
  unfold Py.int. rewrite int_lstrip_upper, int_rstrip_upper.
  destruct (Py.int_rstrip (Py.int_lstrip s)) as [|c r]; [reflexivity|].
  cbn [Py.upper]. rewrite !sign_split.
  destruct (upper_char_sign c) as [-> ->].
  destruct (Ascii.eqb c "+"); [now rewrite int_digits_upper|].
  destruct (Ascii.eqb c "-"); [now rewrite int_digits_upper|].
  change (String (Py.upper_char c) (Py.upper r)) with (Py.upper (String c r)).
  now rewrite int_digits_upper.
Qed.

(** X4: [process_line] does not see letter case: in every state a line
    and the same line written in upper case do the same. *)
Theorem line_case_insensitive (st : state) (line : string) :
  process_line (Py.upper line) st = process_line line st.
Proof.
  pose proof (split_upper line) as HU.
  destruct (Py.split line) as [|cmd rest] eqn:H; cbn [List.map] in HU.
  - now rewrite (process_line_blank _ st HU), (process_line_blank _ st H).
  - destruct (String.eqb_spec (Py.upper cmd) "PLACE") as [U|U].
    + assert (Py.upper (Py.upper cmd) = "PLACE") as UU by now rewrite upper_upper.
      destruct rest as [|arg rest]; cbn [List.map] in HU.
      * now rewrite (process_line_place_missing _ _ st HU UU),
                    (process_line_place_missing _ _ st H U).
      * rewrite (process_line_place _ _ _ _ st HU UU),
                (process_line_place _ _ _ _ st H U).
        rewrite split_sep_upper.
        destruct (Py.split_sep "," arg)
          as [|xs [|ys [|name [|extra fields]]]]; try reflexivity.
        cbn [List.map]. rewrite !int_upper.
        destruct (Py.int max_str_digits xs) as [px|e]; [|reflexivity].
        destruct (Py.int max_str_digits ys) as [py|e]; [|reflexivity].
        now rewrite !place_run, upper_upper.
    + assert (Py.upper (Py.upper cmd) <> "PLACE") as UU by now rewrite upper_upper.
      now rewrite (process_line_other _ _ _ st HU UU),
                  (process_line_other _ _ _ st H U), upper_upper.
Qed.



(** ** Placing again *)

Lemma range5 (n : Z) : 0 <= n < 5 -> n = 0 \/ n = 1 \/ n = 2 \/ n = 3 \/ n = 4.
Proof. lia. Qed.

Lemma directions_upper_fixed (d : string) : In d DIRECTIONS -> Py.upper d = d.
Proof.
  intros H. apply direction_cases in H.
  destruct H as [-> | [-> | [-> | ->]]]; reflexivity.
Qed.

Lemma int_of_digit (n : Z) :
  0 <= n < 5 -> Py.int max_str_digits (String (digit_char n) EmptyString) = Ret n.
Proof.
  intros H. apply range5 in H.
  destruct H as [-> | [-> | [-> | [-> | ->]]]];
    vm_compute; destruct max_str_digits as [|[|m]]; reflexivity.
Qed.

Lemma place_line_of_report (a b : Z) (d : string) :
  0 <= a < 5 -> 0 <= b < 5 -> In d DIRECTIONS ->
  Py.split ("PLACE " ++ String (digit_char a) ("," ++ String (digit_char b) ("," ++ d)))
  = ["PLACE"; String (digit_char a) ("," ++ String (digit_char b) ("," ++ d))]
  /\ Py.split_sep "," (String (digit_char a) ("," ++ String (digit_char b) ("," ++ d)))
     = [String (digit_char a) EmptyString; String (digit_char b) EmptyString; d].
Proof.
  intros Ha Hb Hd. apply range5 in Ha, Hb. apply direction_cases in Hd.
  destruct Ha as [-> | [-> | [-> | [-> | ->]]]];
    destruct Hb as [-> | [-> | [-> | [-> | ->]]]];
    destruct Hd as [-> | [-> | [-> | ->]]]; split; reflexivity.
Qed.

(** X5: what REPORT prints is a PLACE argument for the same state: for a
    placed robot on the table facing one of the four directions, if
    [report] returns r, then the line PLACE r, processed in any state,
    leaves exactly the state that was reported. *)
Theorem report_place_round_trip (st st' : state) (r : string) :
  well_formed st -> is_placed st = true ->
  report st = (Ret (Some r), st) ->
  process_line ("PLACE " ++ r) st' = (Ret None, st).
Proof.
  intros W P E.
  destruct (placed_shape st W P) as (a & b & d & -> & [Ha Hb] & Hd).
  rewrite report_run in E.
  cbn [is_placed x y facing Py.format_int Py.format_str] in E.
  rewrite (str_int_digit a Ha), (str_int_digit b Hb) in E.
  injection E as <-.
  destruct (place_line_of_report a b d Ha Hb Hd) as [Hs Hf].
  cbn [String.append] in Hs, Hf |- *.
  rewrite (process_line_place _ _ _ _ st' Hs eq_refl), Hf.
  rewrite (int_of_digit a Ha), (int_of_digit b Hb), place_run.
  rewrite (directions_upper_fixed d Hd), (proj2 (contains_In DIRECTIONS d) Hd).
  now rewrite (proj2 (is_valid_position_spec a b) (conj Ha Hb)).
Qed.

(** X6: a line that places the robot fixes the whole state: there is one
    position on the table and one direction such that the line, processed
    in any state whatever, returns None and leaves the robot placed
    there. *)
Theorem placing_line_resets (line : string) :
  places line ->
  exists a b d,
    (0 <= a < 5 /\ 0 <= b < 5) /\ In d DIRECTIONS /\
    forall st, process_line line st
               = (Ret None, mkState (Some a) (Some b) (Some d) true).
Proof.
  unfold places. intros Pl.
  destruct (Py.split line) as [|cmd rest] eqn:H.
  - rewrite (process_line_blank _ _ H) in Pl. discriminate Pl.
  - destruct (String.eqb_spec (Py.upper cmd) "PLACE") as [U|U].
    + destruct rest as [|arg rest].
      * rewrite (process_line_place_missing _ _ _ H U) in Pl. discriminate Pl.
      * rewrite (process_line_place _ _ _ _ _ H U) in Pl.
        destruct (Py.split_sep "," arg) as [|xs [|ys [|name [|extra fields]]]] eqn:Hs;
          try discriminate Pl.
        destruct (Py.int max_str_digits xs) as [px|e] eqn:Hx; [|discriminate Pl].
        destruct (Py.int max_str_digits ys) as [py|e] eqn:Hy; [|discriminate Pl].
        rewrite place_run in Pl. cbn [snd] in Pl.
        destruct (Py.contains DIRECTIONS (Py.upper name)) eqn:C;
          [|discriminate Pl].
        destruct (is_valid_position px py) eqn:V; [|discriminate Pl].
        exists px, py, (Py.upper name). split; [|split].
        -- now apply is_valid_position_spec.
        -- now apply contains_In.
        -- intros st.
           now rewrite (process_line_place _ _ _ _ st H U), Hs, Hx, Hy,
                       place_run, C, V.
    + rewrite (process_line_other _ _ _ _ H U) in Pl. discriminate Pl.
Qed.

(** *** The reachable states *)

Lemma exec_from_initial (o : op) :
  snd (exec o create_initial_state) = create_initial_state
  \/ is_placed (snd (exec o create_initial_state)) = true.
Proof.
  assert (forall o, direct o = true ->
            snd (exec o create_initial_state) = create_initial_state
            \/ is_placed (snd (exec o create_initial_state)) = true) as D.
  { intros [px py name| | | | |l] Hd; try discriminate Hd;
      try (left; reflexivity).
    rewrite exec_place, place_run. cbn [snd].
    destruct (Py.contains DIRECTIONS (Py.upper name) && is_valid_position px py);
      [right; reflexivity | left; reflexivity]. }
  destruct (direct o) eqn:Do; [now apply D|].
  destruct o as [| | | | |l]; try discriminate Do.
  cbn [exec].
  destruct (process_line_cases l create_initial_state) as [E|(o & Ho & _ & E)];
    rewrite E.
  - now left.
  - now apply D.
Qed.

(** X7: the states a run can reach, by calls of the transitions and by
    lines, are the initial state and the hundred states of a placed
    robot with 0 <= x < 5, 0 <= y < 5 and one of the four directions,
    and no others. *)
Theorem reachable_states (st : state) :
  reachable st <->
  st = create_initial_state \/
  exists a b d,
    (0 <= a < 5 /\ 0 <= b < 5) /\ In d DIRECTIONS /\
    st = mkState (Some a) (Some b) (Some d) true.
Proof.
  split.
  - intros R.
    assert (st = create_initial_state \/ is_placed st = true) as [E|P].
    { induction R as [|st o R IH]; [now left|].
      destruct IH as [->|P].
      - apply exec_from_initial.
      - right. now apply exec_keeps_placed. }
    + now left.
    + right.
      destruct (placed_shape st (reachable_well_formed st R) P)
        as (a & b & d & E & Hab & Hd).
      now exists a, b, d.
  - intros [->|(a & b & d & Hab & Hd & ->)].
    + exact reachable_init.
    + assert (snd (exec (Place a b d) create_initial_state)
              = mkState (Some a) (Some b) (Some d) true) as <-.
      { rewrite exec_place, place_run. cbn [snd].
        rewrite (directions_upper_fixed d Hd),
                (proj2 (contains_In DIRECTIONS d) Hd).
        now rewrite (proj2 (is_valid_position_spec a b) Hab). }
      apply reachable_step, reachable_init.
Qed.

(** ** Moves and turns in a row *)

(** X8: n MOVEs in a row take a placed robot n steps along its facing
    and stop it at the edge of the table: from (a, b) facing d, with unit
    vector (dx, dy), the robot ends at (a + n dx, b + n dy) with each
    coordinate cut to the range 0..4, still facing d, and nothing is
    raised. *)
Theorem moves_stop_at_edge (n : nat) (a b dx dy : Z) (d : string) :
  0 <= a < 5 -> 0 <= b < 5 -> unit_vector d dx dy ->
  iterate n move (mkState (Some a) (Some b) (Some d) true)
  = (Ret tt,
     mkState (Some (Z.max 0 (Z.min 4 (a + Z.of_nat n * dx))))
             (Some (Z.max 0 (Z.min 4 (b + Z.of_nat n * dy))))
             (Some d) true).
Proof.
  intros Ha Hb Hv. revert a b Ha Hb.
  induction n as [|n IH]; intros a b Ha Hb.
  - cbn [iterate]. unfold ret. f_equal. f_equal; f_equal; lia.
  - cbn [iterate]. unfold bind. rewrite (move_run a b dx dy d Hv).
    destruct (is_valid_position (a + dx) (b + dy)) eqn:V.
    + apply is_valid_position_spec in V. destruct V as [Va Vb].
      rewrite (IH _ _ Va Vb). f_equal. f_equal; f_equal; destruct Hv; lia.
    + assert (~ (0 <= a + dx < 5 /\ 0 <= b + dy < 5)) as N.
      { intros C. apply is_valid_position_spec in C. congruence. }
      rewrite (IH _ _ Ha Hb). f_equal. f_equal; f_equal; destruct Hv; lia.
Qed.

(** X9: a MOVE that moved the robot is undone by turning round, moving
    and turning round again: on a placed robot on the table, when [move]
    changes the state, MOVE LEFT LEFT MOVE LEFT LEFT returns with the
    state as it was before. *)
Theorem move_and_back (st : state) :
  well_formed st -> is_placed st = true -> snd (move st) <> st ->
  (move ;; rotate_left ;; rotate_left ;; move ;; rotate_left ;; rotate_left) st
  = (Ret tt, st).
Proof.
  intros W P Hm.
  destruct (placed_shape st W P) as (a & b & d & -> & [Ha Hb] & Hd).
  apply range5 in Ha, Hb. apply direction_cases in Hd.
  destruct Ha as [-> | [-> | [-> | [-> | ->]]]];
    destruct Hb as [-> | [-> | [-> | [-> | ->]]]];
    destruct Hd as [-> | [-> | [-> | ->]]];
    first [reflexivity | exfalso; apply Hm; reflexivity].
Qed.

(** X10: on a robot that is unplaced, or placed facing one of the four
    directions, three LEFT do what one RIGHT does, three RIGHT what one
    LEFT does, and two LEFT what two RIGHT do. *)
Theorem three_lefts_make_a_right (st : state) :
  (is_placed st = true -> has_direction st) ->
  iterate 3 rotate_left st = rotate_right st
  /\ iterate 3 rotate_right st = rotate_left st
  /\ iterate 2 rotate_left st = iterate 2 rotate_right st.
Proof.
  intros H. destruct st as [a b f [|]].
  - destruct (H eq_refl) as (d & E & Hd). cbn in E. subst f.
    apply direction_cases in Hd.
    destruct Hd as [-> | [-> | [-> | ->]]]; repeat split; reflexivity.
  - repeat split; reflexivity.
Qed.

(** ** Whole runs *)

Lemma run_visual_off (stream : list string) (st : state) :
  run_stream_visual_from false stream st = run_stream_from stream st.
Proof.
  revert st. induction stream as [|raw stream IH]; intros st; [reflexivity|].
  cbn [run_stream_visual_from run_stream_from].
  change Py.newline_char with "010"%char.
  destruct (process_line (Py.rstrip_char "010" raw) st) as [[[r|]|e] st'];
    rewrite ?IH; try reflexivity.
  cbn [List.app]. now destruct (run_stream_from stream st') as [[res st''] printed].
Qed.

(** X11: a stream is processed line after line: the run on two streams
    put end to end is the run on the first, then the run on the second
    from the state the first left, with the printed lines put end to
    end; when the first raises, the second is not read.  This holds with
    and without the visualization. *)
Theorem run_stream_app (visual : bool) (s1 s2 : list string) (st : state) :
  run_stream_visual_from visual (s1 ++ s2) st =
  match run_stream_visual_from visual s1 st with
  | (Ret _, st1, p1) =>
      let '(res, st2, p2) := run_stream_visual_from visual s2 st1 in
      (res, st2, (p1 ++ p2)%list)
  | (Raise e, st1, p1) => (Raise e, st1, p1)
  end.
Proof.
  revert st. induction s1 as [|raw s1 IH]; intros st.
  - cbn. now destruct (run_stream_visual_from visual s2 st) as [[res st2] p2].
  - cbn [List.app run_stream_visual_from].
    destruct (process_line (Py.rstrip_char Py.newline_char raw) st)
      as [[out|e] st']; [|reflexivity].
    destruct (print_table visual st') as [table|e]; [|reflexivity].
    rewrite IH.
    destruct (run_stream_visual_from visual s1 st') as [[[[]|e] st1] p1];
      [|reflexivity].
    destruct (run_stream_visual_from visual s2 st1) as [[res st2] p2].
    now rewrite <- !app_assoc.
Qed.

Lemma line_well_formed (line : string) (st : state) :
  well_formed st ->
  exists out st', process_line line st = (Ret out, st') /\ well_formed st'.
Proof.
  intros W. destruct (exec_well_formed (Line line) st W) as (out & E & W').
  cbn [exec] in E, W'.
  destruct (process_line line st) as [r st']. cbn [fst snd] in E, W'.
  subst r. eauto.
Qed.

Lemma render_lines_well_formed (st : state) :
  well_formed st -> exists lines, render_lines st = Ret lines.
Proof.
  intros W. destruct (is_placed st) eqn:P.
  - destruct (placed_shape st W P) as (a & b & d & -> & [Ha Hb] & Hd).
    cbv beta iota zeta delta [render_lines is_placed x y facing Py.format_int].
    rewrite (str_int_digit a Ha), (str_int_digit b Hb). eauto.
  - unfold render_lines. rewrite P. eauto.
Qed.

Lemma print_table_well_formed (visual : bool) (st : state) :
  well_formed st -> exists table, print_table visual st = Ret table.
Proof.
  intros W. unfold print_table, render_table.
  destruct visual; [|eauto].
  destruct (render_lines_well_formed st W) as (lines & ->). eauto.
Qed.

Lemma run_from_well_formed (visual : bool) (stream : list string) (st : state) :
  well_formed st ->
  exists st' printed,
    run_stream_visual_from visual stream st = (Ret tt, st', printed)
    /\ well_formed st'.
Proof.
  revert st. induction stream as [|raw stream IH]; intros st W.
  - exists st, []. split; [reflexivity | exact W].
  - cbn [run_stream_visual_from].
    destruct (line_well_formed (Py.rstrip_char Py.newline_char raw) st W)
      as (out & st' & E & W').
    rewrite E. destruct (print_table_well_formed visual st' W') as (table & ->).
    destruct (IH st' W') as (st'' & printed & E' & W'').
    rewrite E'. eauto.
Qed.

(** X12: [run_stream] never raises: on every stream, with the
    visualization and without it, the run from the initial state ends
    and leaves a state reachable from the initial one; and the run from
    any state that is unplaced, or has the robot on the table facing one
    of the four directions, ends too. *)
Theorem run_stream_returns (visual : bool) (stream : list string) :
  (exists st printed,
     run_stream_visual stream visual = (Ret tt, st, printed) /\ reachable st)
  /\ (forall st, well_formed st ->
        fst (fst (run_stream_visual_from visual stream st)) = Ret tt).
Proof.
  split.
  - unfold run_stream_visual.
    assert (forall st, reachable st ->
              exists st' printed,
                run_stream_visual_from visual stream st = (Ret tt, st', printed)
                /\ reachable st') as R.
    { induction stream as [|raw stream IH]; intros st Hr.
      - exists st, []. now split.
      - cbn [run_stream_visual_from].
        pose proof (reachable_step st (Line (Py.rstrip_char Py.newline_char raw)) Hr)
          as Hr'.
        destruct (line_well_formed (Py.rstrip_char Py.newline_char raw) st
                    (reachable_well_formed st Hr)) as (out & st' & E & W').
        cbn [exec] in Hr'. rewrite E in Hr' |- *. cbn [snd] in Hr'.
        destruct (print_table_well_formed visual st' W') as (table & ->).
        destruct (IH st' Hr') as (st'' & printed & E' & Hr'').
        rewrite E'. eauto. }
    destruct (print_table_well_formed visual _ initial_well_formed) as (first & ->).
    destruct (R create_initial_state reachable_init) as (st & printed & E & Hr).
    rewrite E. eauto.
  - intros st W.
    destruct (run_from_well_formed visual stream st W) as (st' & printed & E & _).
    now rewrite E.
Qed.

(** *** What a run prints *)

Lemma report_line_run (line : string) (st : state) :
  is_report_line line = true -> is_placed st = true ->
  process_line line st = report st.
Proof.
  unfold is_report_line. intros R P.
  destruct (Py.split line) as [|cmd rest] eqn:H; [discriminate R|].
  apply String.eqb_eq in R.
  assert (Py.upper cmd <> "PLACE") as U by (rewrite R; discriminate).
  rewrite (process_line_other _ _ _ st H U), P, R. reflexivity.
Qed.

Lemma other_line_run (line : string) (st : state) :
  is_report_line line = false \/ is_placed st = false ->
  exists st', process_line line st = (Ret None, st')
              \/ exists e, process_line line st = (Raise e, st').
Proof.
  unfold is_report_line. intros N.
  destruct (Py.split line) as [|cmd rest] eqn:H.
  - exists st. left. now apply process_line_blank.
  - destruct (String.eqb_spec (Py.upper cmd) "PLACE") as [U|U].
    + pose proof (place_line_returns_none st line cmd rest H U) as F.
      destruct (process_line line st) as [r st']. cbn in F. subst r.
      exists st'. now left.
    + rewrite (process_line_other _ _ _ st H U).
      destruct (is_placed st) eqn:P; [|exists st; now left].
      destruct N as [N|N]; [|discriminate N]. rewrite N.
      assert (forall c : M unit, exists st',
                (c ;; ret (@None string)) st = (Ret None, st')
                \/ exists e, (c ;; ret (@None string)) st = (Raise e, st')) as B.
      { intros c. unfold bind, ret.
        destruct (c st) as [[u|e] st']; exists st'; eauto. }
      destruct (String.eqb (Py.upper cmd) "MOVE"); [apply B|].
      destruct (String.eqb (Py.upper cmd) "LEFT"); [apply B|].
      destruct (String.eqb (Py.upper cmd) "RIGHT"); [apply B|].
      exists st. now left.
Qed.

Lemma is_report_line_rstrip (raw : string) :
  is_report_line (Py.rstrip_char "010" raw) = is_report_line raw.
Proof. unfold is_report_line. now rewrite split_rstrip_char. Qed.

(** X13: every line a run prints without the visualization is a position
    report: started in the initial state, or in any state that is
    unplaced or has the robot on the table facing one of the four
    directions, each printed line is a digit 0..4, a comma, a digit 0..4,
    a comma and one of NORTH, EAST, SOUTH, WEST. *)
Theorem printed_lines_are_reports (stream : list string) (st : state) :
  well_formed st ->
  Forall (fun p => exists a b d,
            (0 <= a < 5 /\ 0 <= b < 5) /\ In d DIRECTIONS /\ p = report_text a b d)
         (snd (run_stream_from stream st)).
Proof.
  revert st. induction stream as [|raw stream IH]; intros st W.
  - constructor.
  - cbn [run_stream_from].
    destruct (line_well_formed (Py.rstrip_char "010" raw) st W)
      as (out & st' & E & W').
    rewrite E. specialize (IH st' W').
    destruct out as [r|]; [|exact IH].
    destruct (run_stream_from stream st') as [[res st''] printed].
    cbn [snd] in IH |- *. constructor; [|exact IH].
    destruct (is_report_line (Py.rstrip_char "010" raw)) eqn:R.
    + destruct (is_placed st) eqn:P.
      * rewrite (report_line_run _ st R P) in E.
        destruct (placed_shape st W P) as (a & b & d & -> & Hab & Hd).
        rewrite (report_placed a b d Hab) in E.
        exists a, b, d. repeat split; try tauto. congruence.
      * destruct (other_line_run (Py.rstrip_char "010" raw) st (or_intror P))
          as (s0 & [F|(e & F)]); congruence.
    + destruct (other_line_run (Py.rstrip_char "010" raw) st (or_introl R))
        as (s0 & [F|(e & F)]); congruence.
Qed.

(** X14: once the robot is placed, each REPORT line prints exactly one
    line and no other line prints: from a state with the robot on the
    table facing one of the four directions, the number of printed lines
    is the number of lines of the stream whose first token is REPORT;
    from an unplaced state it is at most that number. *)
Theorem one_line_per_report (stream : list string) (st : state) :
  well_formed st ->
  (is_placed st = true ->
   List.length (snd (run_stream_from stream st))
   = List.length (List.filter is_report_line stream))
  /\ (List.length (snd (run_stream_from stream st))
      <= List.length (List.filter is_report_line stream))%nat.
Proof.
  revert st. induction stream as [|raw stream IH]; intros st W.
  - split; intros; reflexivity.
  - cbn [run_stream_from List.filter].
    destruct (line_well_formed (Py.rstrip_char "010" raw) st W)
      as (out & st' & E & W').
    pose proof (exec_keeps_placed (Line (Py.rstrip_char "010" raw)) st) as K.
    cbn [exec] in K. rewrite E in K |- *. cbn [snd] in K.
    destruct (IH st' W') as [IHp IHle].
    rewrite <- (is_report_line_rstrip raw).
    destruct (is_report_line (Py.rstrip_char "010" raw)) eqn:R.
    + destruct (is_placed st) eqn:P.
      * rewrite (report_line_run _ st R P) in E.
        destruct (placed_shape st W P) as (a & b & d & Est & Hab & Hd).
        rewrite Est, (report_placed a b d Hab), <- Est in E.
        injection E as <- <-.
        destruct (run_stream_from stream st) as [[res st''] printed].
        cbn [snd List.length] in *. specialize (IHp P). split; intros; lia.
      * destruct (other_line_run (Py.rstrip_char "010" raw) st (or_intror P))
          as (s0 & [F|(e & F)]); [|congruence].
        assert (out = None) as -> by congruence.
        split; [discriminate|]. cbn [List.length]. lia.
    + destruct (other_line_run (Py.rstrip_char "010" raw) st (or_introl R))
        as (s0 & [F|(e & F)]); [|congruence].
      assert (out = None) as -> by congruence.
      split; [|exact IHle]. intros P. apply IHp, K, P.
Qed.

(** *** The visualization, the test driver and the entry point *)

Lemma subseq_refl {A : Type} (l : list A) : subseq l l.
Proof. induction l; constructor; assumption. Qed.

Lemma subseq_app_skip {A : Type} (pre l l' : list A) :
  subseq l l' -> subseq l (pre ++ l').
Proof. intros H. induction pre; [exact H | now constructor]. Qed.

Lemma is_nonblank_rstrip (raw : string) :
  is_nonblank (Py.rstrip_char "010" raw) = is_nonblank raw.
Proof. unfold is_nonblank. now rewrite strip_rstrip_char. Qed.

Lemma render_table_head (st : state) (table : string) :
  render_table st = Ret table -> starts_with "+" table = true.
Proof.
  unfold render_table, render_lines, Py.range, Py.mul_list, TABLE_WIDTH, TABLE_HEIGHT.
  change (Z.to_nat 5) with 5%nat.
  destruct (is_placed st).
  - destruct (Py.format_int max_str_digits (x st)); [|discriminate].
    destruct (Py.format_int max_str_digits (y st)); [|discriminate].
    intros [= <-]. reflexivity.
  - intros [= <-]. reflexivity.
Qed.

Lemma report_text_head (a b : Z) (d : string) :
  0 <= a < 5 ->
  starts_with "010" (report_text a b d) = false
  /\ starts_with "+" (report_text a b d) = false.
Proof.
  intros Ha. apply range5 in Ha.
  destruct Ha as [-> | [-> | [-> | [-> | ->]]]]; split; reflexivity.
Qed.

Lemma echo_of_rstrip (raw : string) :
  echo_of (Py.rstrip_char "010" raw) = echo_of raw.
Proof. unfold echo_of. now rewrite strip_rstrip_char. Qed.

Lemma echo_of_head (raw : string) :
  starts_with "010" (echo_of raw) = true /\ starts_with "+" (echo_of raw) = false.
Proof. split; reflexivity. Qed.

(** What a line returns in a well-formed state: nothing, or the text of
    a position report. *)
Lemma line_output (line : string) (st : state) :
  well_formed st ->
  exists out st',
    process_line line st = (Ret out, st') /\ well_formed st'
    /\ (out = None \/
        exists a b d, 0 <= a < 5 /\ out = Some (report_text a b d)).
Proof.
  intros W. destruct (line_well_formed line st W) as (out & st' & E & W').
  exists out, st'. split; [exact E|]. split; [exact W'|].
  destruct out as [r|]; [right | now left].
  destruct (is_report_line line) eqn:R;
    [destruct (is_placed st) eqn:P|].
  - rewrite (report_line_run _ st R P) in E.
    destruct (placed_shape st W P) as (a & b & d & -> & Hab & Hd).
    rewrite (report_placed a b d Hab) in E.
    exists a, b, d. split; [tauto | congruence].
  - destruct (other_line_run line st (or_intror P)) as (s0 & [F|(e & F)]);
      congruence.
  - destruct (other_line_run line st (or_introl R)) as (s0 & [F|(e & F)]);
      congruence.
Qed.

(** X15: the visualization only adds to what is printed.  From any state
    that is unplaced, or has the robot on the table facing one of the
    four directions, the run with the visualization ends as the run
    without it does and leaves the same state; the lines the plain run
    prints are among those the visual run prints, in the same order; and
    the entries of the visual run are of three kinds: those that begin
    with a line feed are the echoes, one for each line of the stream that
    is not blank, in order; those that begin with + are the tables, the
    picture of the state after each line of the stream, in order; and
    the others are exactly the lines the plain run prints. *)
Theorem visual_adds_only (stream : list string) (st : state) :
  well_formed st ->
  fst (run_stream_visual_from true stream st) = fst (run_stream_from stream st)
  /\ subseq (snd (run_stream_from stream st))
            (snd (run_stream_visual_from true stream st))
  /\ List.filter (starts_with "010") (snd (run_stream_visual_from true stream st))
     = List.map echo_of (List.filter is_nonblank stream)
  /\ List.map Ret
       (List.filter (starts_with "+") (snd (run_stream_visual_from true stream st)))
     = List.map render_table (states_after stream st)
  /\ List.filter (fun entry => negb (starts_with "010" entry || starts_with "+" entry))
       (snd (run_stream_visual_from true stream st))
     = snd (run_stream_from stream st).
Proof.
  revert st. induction stream as [|raw stream IH]; intros st W.
  - repeat split; constructor.
  - cbn [run_stream_visual_from run_stream_from List.filter states_after List.map].
    change Py.newline_char with "010"%char.
    rewrite <- (is_nonblank_rstrip raw). unfold is_nonblank at 1.
    rewrite <- (process_line_rstrip raw).
    destruct (line_output (Py.rstrip_char "010" raw) st W)
      as (out & st' & E & W' & Hout).
    rewrite E. cbn [snd].
    destruct (render_lines_well_formed st' W') as (lines & Hl).
    assert (render_table st' = Ret (Py.join Py.newline lines)) as Ht
      by (unfold render_table; now rewrite Hl).
    unfold print_table. rewrite Ht.
    pose proof (render_table_head st' _ Ht) as Hplus.
    assert (starts_with "010" (Py.join Py.newline lines) = false) as Hnl.
    { destruct (Py.join Py.newline lines) as [|c r]; [reflexivity|].
      cbn in Hplus |- *. apply Ascii.eqb_eq in Hplus. now subst c. }
    destruct (IH st' W') as (E1 & S & Fe & Ft & Fp).
    destruct (run_stream_visual_from true stream st') as [[res2 st2] p2].
    destruct (run_stream_from stream st') as [[res1 st1] p1].
    cbn [fst snd] in E1, S, Fe, Ft, Fp. injection E1 as -> ->.
    assert (forall pre, subseq p1 (pre ++ p2)) as S'
      by (intros pre; now apply subseq_app_skip).
    change (Py.newline ++ "> " ++ Py.strip (Py.rstrip_char "010" raw))
      with (echo_of (Py.rstrip_char "010" raw)).
    rewrite echo_of_rstrip.
    destruct (echo_of_head raw) as [He1 He2].
    destruct (String.eqb (Py.strip (Py.rstrip_char "010" raw)) "");
      destruct Hout as [->|(a & b & d & Ha & ->)];
      try destruct (report_text_head a b d Ha) as [Hr1 Hr2];
      cbn [fst snd negb List.app List.filter List.map];
      rewrite ?Hplus, ?Hnl, ?Hr1, ?Hr2, ?He1, ?He2;
      cbn [fst snd negb orb List.app List.filter List.map Ascii.eqb Bool.eqb andb];
      rewrite ?Fe, ?Ft, ?Fp, ?Ht;
      (split; [reflexivity|]); (split; [|repeat split; reflexivity]);
      repeat (first [apply (S' []) | apply subseq_keep | apply subseq_skip]).
Qed.

Lemma run_commands_loop_run (lines : list string) (st : state) :
  well_formed st ->
  run_commands_loop lines st
  = (Ret (snd (run_stream_from lines st)), snd (fst (run_stream_from lines st))).
Proof.
  revert st. induction lines as [|line lines IH]; intros st W; [reflexivity|].
  cbn [run_commands_loop run_stream_from]. unfold bind at 1.
  rewrite process_line_rstrip.
  destruct (line_well_formed line st W) as (out & st' & E & W').
  rewrite E. unfold bind at 1. rewrite (IH st' W').
  destruct (run_stream_from lines st') as [[res st''] printed].
  destruct out; reflexivity.
Qed.

(** X16: the driver of the tests sees what the program prints: for every
    list of lines, [run_commands] returns, without raising, exactly the
    lines that [run_stream] prints on them without the visualization,
    although [run_stream] first takes the line feeds off the end of each
    line and [run_commands] does not. *)
Theorem run_commands_is_run_stream (lines : list string) :
  run_commands lines = Ret (snd (run_stream lines)).
Proof.
  unfold run_commands, run_stream.
  now rewrite (run_commands_loop_run lines _ initial_well_formed).
Qed.

(** X23: a PLACE that places the robot starts the run afresh: when the
    first line of a stream places the robot, the run on the stream ends
    in the same way, leaves the same state and prints the same lines
    from any two states whatever. *)
Theorem place_restarts_run (raw : string) (rest : list string) (st1 st2 : state) :
  places raw ->
  run_stream_from (raw :: rest) st1 = run_stream_from (raw :: rest) st2.
Proof.
  unfold places. intros Pl.
  cbn [run_stream_from]. rewrite !process_line_rstrip.
  assert (forall st, process_line raw st = process_line raw create_initial_state)
    as Same.
  { intros st.
    destruct (Py.split raw) as [|cmd tokens] eqn:H.
    - rewrite (process_line_blank _ create_initial_state H) in Pl.
      discriminate Pl.
    - destruct (String.eqb_spec (Py.upper cmd) "PLACE") as [U|U].
      + destruct tokens as [|arg tokens].
        * rewrite (process_line_place_missing _ _ create_initial_state H U) in Pl.
          discriminate Pl.
        * rewrite (process_line_place _ _ _ _ create_initial_state H U) in Pl.
          rewrite (process_line_place _ _ _ _ st H U),
                  (process_line_place _ _ _ _ create_initial_state H U).
          destruct (Py.split_sep "," arg) as [|xs [|ys [|name [|extra fields]]]];
            try discriminate Pl.
          destruct (Py.int max_str_digits xs) as [px|e0]; [|discriminate Pl].
          destruct (Py.int max_str_digits ys) as [py|e0]; [|discriminate Pl].
          rewrite (place_run px py name create_initial_state) in Pl |- *.
          rewrite (place_run px py name st).
          cbn [snd] in Pl |- *.
          destruct (Py.contains DIRECTIONS (Py.upper name)
                    && is_valid_position px py);
            [reflexivity | discriminate Pl].
      + rewrite (process_line_other _ _ _ _ H U) in Pl. discriminate Pl. }
  now rewrite (Same st1), (Same st2).
Qed.

Lemma contains_flag (arg : string) :
  Py.contains ["--visual"; "-v"] arg = is_flag arg.
Proof.
  unfold Py.contains, is_flag. cbn [existsb]. now rewrite orb_false_r.
Qed.

Lemma parse_argv (argv : list string) (visual : bool) (filenames : list string) :
  List.fold_left
    (fun '(visual, filenames) arg =>
       if Py.contains ["--visual"; "-v"] arg then (true, filenames)
       else (visual, (filenames ++ [arg])%list))
    argv (visual, filenames)
  = (visual || existsb is_flag argv,
     (filenames ++ List.filter (fun a => negb (is_flag a)) argv)%list).
Proof.
  revert visual filenames.
  induction argv as [|arg argv IH]; intros visual filenames.
  - cbn. now rewrite orb_false_r, app_nil_r.
  - cbn [List.fold_left existsb List.filter]. rewrite contains_flag.
    destruct (is_flag arg); cbn [negb]; rewrite IH.
    + now rewrite orb_true_r.
    + now rewrite orb_false_l, <- app_assoc.
Qed.

Lemma run_visual_returns (stream : list string) (visual : bool) :
  exists st printed, run_stream_visual stream visual = (Ret tt, st, printed).
Proof.
  unfold run_stream_visual.
  destruct (print_table_well_formed visual _ initial_well_formed) as (first & ->).
  destruct (run_from_well_formed visual stream _ initial_well_formed)
    as (st & printed & E & _).
  rewrite E. eauto.
Qed.

Lemma run_stream_source_run (stream : source) (visual : bool) :
  run_stream_source stream visual
  = (source_error stream, snd (run_stream_visual (source_lines stream) visual)).
Proof.
  unfold run_stream_source.
  destruct (run_visual_returns (source_lines stream) visual) as (st & printed & ->).
  reflexivity.
Qed.

Lemma main_run (open_file : string -> io_error + source)
    (stdin : source) (argv : list string) :
  main open_file stdin argv =
  let visual := existsb is_flag argv in
  match List.filter (fun a => negb (is_flag a)) argv with
  | filename :: _ =>
      match open_file filename with
      | inr f =>
          let printed := snd (run_stream_visual (source_lines f) visual) in
          match source_error f with
          | None => mkOutcome (Returned 0) printed []
          | Some (OSError e) =>
              mkOutcome (Returned 1) printed
                ["Error opening file '" ++ filename ++ "': " ++ e]
          | Some (OtherError e) => mkOutcome (Raised (OtherError e)) printed []
          end
      | inl (OSError e) =>
          mkOutcome (Returned 1) []
            ["Error opening file '" ++ filename ++ "': " ++ e]
      | inl (OtherError e) => mkOutcome (Raised (OtherError e)) [] []
      end
  | [] =>
      let printed := snd (run_stream_visual (source_lines stdin) visual) in
      match source_error stdin with
      | None => mkOutcome (Returned 0) printed []
      | Some e => mkOutcome (Raised e) printed []
      end
  end.
Proof.
  unfold main. rewrite parse_argv. cbn [orb List.app]. cbv zeta.
  destruct (List.filter (fun a => negb (is_flag a)) argv) as [|filename rest].
  - rewrite run_stream_source_run. now destruct (source_error stdin).
  - destruct (open_file filename) as [[e|e]|f]; try reflexivity.
    rewrite run_stream_source_run.
    now destruct (source_error f) as [[e|e]|].
Qed.



(** X18: [main] reads its arguments for two things only, whether one of
    them is --visual or -v and which is the first that is neither: two
    argument lists that agree on these give the same result, so the flag
    may stand anywhere and may be repeated, and file names after the
    first are not opened. *)
Theorem main_arguments (open_file : string -> io_error + source)
    (stdin : source) (argv argv' : list string) :
  existsb is_flag argv = existsb is_flag argv' ->
  List.hd_error (List.filter (fun a => negb (is_flag a)) argv)
  = List.hd_error (List.filter (fun a => negb (is_flag a)) argv') ->
  main open_file stdin argv = main open_file stdin argv'.
Proof.
  intros Hv Hf. rewrite !main_run. cbv zeta. rewrite Hv.
  destruct (List.filter (fun a => negb (is_flag a)) argv) as [|f rest];
    destruct (List.filter (fun a => negb (is_flag a)) argv') as [|f' rest'];
    cbn [List.hd_error] in Hf; try discriminate Hf; [reflexivity|].
  injection Hf as ->. reflexivity.
Qed.

(** X19: without a flag the program prints the position reports and
    nothing else: when no argument is --visual or -v, the standard
    output of [main] is what [run_stream] prints without the
    visualization, on the lines of the standard input when there is no
    other argument and on the lines of the first named file when that
    file opens; and when that stream is read to its end, [main] returns
    0 with nothing on the standard error. *)
Theorem main_plain_output (open_file : string -> io_error + source)
    (stdin : source) (argv : list string) :
  existsb is_flag argv = false ->
  (List.filter (fun a => negb (is_flag a)) argv = [] ->
   stdout (main open_file stdin argv) = snd (run_stream (source_lines stdin))
   /\ (source_error stdin = None ->
       main open_file stdin argv
       = mkOutcome (Returned 0) (snd (run_stream (source_lines stdin))) []))
  /\ (forall filename rest f,
        List.filter (fun a => negb (is_flag a)) argv = filename :: rest ->
        open_file filename = inr f ->
        stdout (main open_file stdin argv) = snd (run_stream (source_lines f))
        /\ (source_error f = None ->
            main open_file stdin argv
            = mkOutcome (Returned 0) (snd (run_stream (source_lines f))) [])).
Proof.
  intros Hv.
  assert (forall stream,
            snd (run_stream_visual stream false) = snd (run_stream stream)) as V.
  { intros stream. unfold run_stream_visual, run_stream.
    cbn [print_table]. rewrite run_visual_off.
    now destruct (run_stream_from stream create_initial_state)
      as [[res st] printed]. }
  split.
  - intros Hf. rewrite main_run. cbv zeta. rewrite Hv, Hf, V.
    destruct (source_error stdin); split; intros; try discriminate; reflexivity.
  - intros filename rest f Hf Ho. rewrite main_run. cbv zeta.
    rewrite Hv, Hf, Ho, V.
    destruct (source_error f) as [[e|e]|]; split; intros;
      try discriminate; reflexivity.
Qed.

(** ** The picture of the table *)

Lemma direction_symbol_char (f : option string) :
  exists c, _direction_symbol f = String c EmptyString.
Proof.
  unfold _direction_symbol.
  destruct (Py.eq_str f "NORTH"); [eauto|].
  destruct (Py.eq_str f "SOUTH"); [eauto|].
  destruct (Py.eq_str f "EAST"); [eauto|].
  destruct (Py.eq_str f "WEST"); eauto.
Qed.

(** X20: the four directions have four different symbols, and the symbol
    is the question mark exactly when the facing is none of the four
    directions, [None] included. *)
Theorem direction_symbols (f : option string) :
  (forall d d', In d DIRECTIONS -> In d' DIRECTIONS ->
     _direction_symbol (Some d) = _direction_symbol (Some d') -> d = d')
  /\ (_direction_symbol f = "?" <-> ~ exists d, f = Some d /\ In d DIRECTIONS).
Proof.
  split.
  - intros d d' Hd Hd' E. apply direction_cases in Hd, Hd'.
    destruct Hd as [-> | [-> | [-> | ->]]];
      destruct Hd' as [-> | [-> | [-> | ->]]];
      first [reflexivity | discriminate E].
  - unfold _direction_symbol. destruct f as [s|]; cbn [Py.eq_str].
    + destruct (String.eqb_spec s "NORTH") as [->|N].
      { split; [discriminate|]. intros H. exfalso. apply H.
        exists "NORTH". split; [reflexivity | apply direction_cases; auto]. }
      destruct (String.eqb_spec s "SOUTH") as [->|S].
      { split; [discriminate|]. intros H. exfalso. apply H.
        exists "SOUTH". split; [reflexivity | apply direction_cases; auto]. }
      destruct (String.eqb_spec s "EAST") as [->|E].
      { split; [discriminate|]. intros H. exfalso. apply H.
        exists "EAST". split; [reflexivity | apply direction_cases; auto]. }
      destruct (String.eqb_spec s "WEST") as [->|W].
      { split; [discriminate|]. intros H. exfalso. apply H.
        exists "WEST". split; [reflexivity | apply direction_cases; auto]. }
      split; [|reflexivity]. intros _ (d & [= <-] & Hd).
      apply direction_cases in Hd. intuition congruence.
    + split; [|reflexivity]. intros _ (d & D & _). discriminate D.
Qed.

Lemma render_lines_raises (st : state) (e : exn) :
  render_lines st = Raise e <-> fst (report st) = Raise e.
Proof.
  unfold render_lines. rewrite report_run. cbn [fst].
  destruct (is_placed st); [|split; discriminate].
  destruct (Py.format_int max_str_digits (x st));
    [|split; intros [= ->]; reflexivity].
  destruct (Py.format_int max_str_digits (y st));
    [split; discriminate | split; intros [= ->]; reflexivity].
Qed.

(** X21: the shape of the picture, in every state whatever.  When
    [render_table] returns, its text is twelve lines joined by line
    feeds: the six lines at the even places are the border of five boxes,
    the five lines between them have 21 characters each, and the last
    line is "Robot: " and what [report] returns when the robot is placed,
    and "Robot not placed." when it is not.  It raises exactly when
    [report] raises, with the same exception (a coordinate with more
    digits than the interpreter's limit).  In a state that is unplaced,
    or has the robot on the table facing one of the four directions, it
    returns, and cutting its text at the line feeds gives the twelve
    lines back. *)
Theorem render_table_shape (st : state) :
  (forall lines, render_lines st = Ret lines ->
     List.length lines = 12%nat
     /\ (forall k, (k < 6)%nat ->
           List.nth (2 * k) lines EmptyString = "+---+---+---+---+---+")
     /\ (forall k, (k < 5)%nat ->
           String.length (List.nth (2 * k + 1) lines EmptyString) = 21%nat)
     /\ List.nth 11 lines EmptyString
        = match fst (report st) with
          | Ret (Some r) => "Robot: " ++ r
          | _ => "Robot not placed."
          end
     /\ render_table st = Ret (Py.join Py.newline lines))
  /\ (forall e, render_table st = Raise e <-> fst (report st) = Raise e)
  /\ (well_formed st ->
      exists lines,
        render_lines st = Ret lines
        /\ render_table st = Ret (Py.join Py.newline lines)
        /\ Py.split_sep Py.newline_char (Py.join Py.newline lines) = lines).
Proof.
  split; [|split].
  - intros lines H.
    assert (render_table st = Ret (Py.join Py.newline lines)) as T
      by (unfold render_table; now rewrite H).
    revert H. rewrite report_run. cbn [fst].
    unfold render_lines, Py.range, Py.mul_list, TABLE_WIDTH, TABLE_HEIGHT.
    change (Z.to_nat 5) with 5%nat.
    destruct (direction_symbol_char (facing st)) as (c & E).
    destruct (is_placed st);
      [destruct (Py.format_int max_str_digits (x st)) as [x_text|e0];
       [destruct (Py.format_int max_str_digits (y st)) as [y_text|e0]|]|];
      intros H; try discriminate H; injection H as <-;
      (split; [reflexivity|]);
      (split; [intros k Hk;
               destruct k as [|[|[|[|[|[|k]]]]]]; try lia; reflexivity|]);
      (split; [intros k Hk;
               destruct k as [|[|[|[|[|k]]]]]; try lia;
               cbn -[_direction_symbol Py.eq_int]; rewrite ?E;
               repeat match goal with
                      | |- context [if ?t then _ else _] => destruct t
                      end; reflexivity|]);
      (split; [reflexivity | exact T]).
  - intros e. rewrite <- render_lines_raises. unfold render_table.
    destruct (render_lines st); split; congruence.
  - intros W. destruct st as [sx sy sf [|]].
    + destruct (placed_shape _ W eq_refl) as (a & b & d & [= -> -> ->] & [Ha Hb] & Hd).
      unfold render_table.
      cbv beta iota zeta delta [render_lines is_placed x y facing Py.format_int].
      rewrite (str_int_digit a Ha), (str_int_digit b Hb).
      eexists. split; [reflexivity|]. split; [reflexivity|].
      apply range5 in Ha, Hb. apply direction_cases in Hd.
      destruct Ha as [-> | [-> | [-> | [-> | ->]]]];
        destruct Hb as [-> | [-> | [-> | [-> | ->]]]];
        destruct Hd as [-> | [-> | [-> | ->]]]; vm_compute; reflexivity.
    + eexists. split; [reflexivity|]. split; reflexivity.
Qed.

Lemma cell_middle (t : bool) (c : ascii) :
  (if t then String " " (String c " ") else "   ")
  = String " " (String (if t then c else " "%char) " ").
Proof. destruct t; reflexivity. Qed.

(** X22: the picture shows the robot where it is, with the row of y = 4
    on top.  Whenever [render_table] draws a placed robot with
    coordinates (a, b), which it does for every (a, b) on the table, the
    character at place 4 i + 2 of line 2 (4 - j) + 1, the middle of the
    box of column i and row j, is the symbol of the facing when (i, j) is
    (a, b) and a space in the 24 other boxes (in all 25 when (a, b) is off
    the table); for an unplaced robot the picture is always drawn and all
    25 are spaces, whatever the other fields hold. *)
Theorem render_table_cells (f : option string) :
  exists c,
    _direction_symbol f = String c EmptyString
    /\ (forall a b lines i j,
          render_lines (mkState (Some a) (Some b) f true) = Ret lines ->
          0 <= i < 5 -> 0 <= j < 5 ->
          String.get (Z.to_nat (4 * i + 2))
            (List.nth (Z.to_nat (2 * (4 - j) + 1)) lines EmptyString)
          = Some (if (a =? i) && (b =? j) then c else " "%char))
    /\ (forall a b, 0 <= a < 5 -> 0 <= b < 5 ->
          exists lines, render_lines (mkState (Some a) (Some b) f true) = Ret lines)
    /\ (forall sx sy,
          exists lines,
            render_lines (mkState sx sy f false) = Ret lines
            /\ forall i j, 0 <= i < 5 -> 0 <= j < 5 ->
                 String.get (Z.to_nat (4 * i + 2))
                   (List.nth (Z.to_nat (2 * (4 - j) + 1)) lines EmptyString)
                 = Some " "%char).
Proof.
  destruct (direction_symbol_char f) as (c & E).
  exists c. split; [exact E|]. split; [|split].
  - intros a b lines i j H Hi Hj. apply range5 in Hi, Hj. revert H.
    unfold render_lines, Py.range, Py.mul_list, TABLE_WIDTH, TABLE_HEIGHT.
    change (Z.to_nat 5) with 5%nat.
    cbv beta iota zeta delta [is_placed x y facing Py.format_int].
    destruct (Py.str_int max_str_digits a) as [x_text|e0]; [|discriminate].
    destruct (Py.str_int max_str_digits b) as [y_text|e0]; [|discriminate].
    intros [= <-].
    cbn -[_direction_symbol Z.eqb List.nth String.get Z.to_nat].
    rewrite E. cbn [String.append]. rewrite !cell_middle.
    destruct Hi as [-> | [-> | [-> | [-> | ->]]]];
      destruct Hj as [-> | [-> | [-> | [-> | ->]]]]; reflexivity.
  - intros a b Ha Hb.
    cbv beta iota zeta delta [render_lines is_placed x y facing Py.format_int].
    rewrite (str_int_digit a Ha), (str_int_digit b Hb). eauto.
  - intros sx sy. eexists. split; [reflexivity|].
    intros i j Hi Hj. apply range5 in Hi, Hj.
    destruct Hi as [-> | [-> | [-> | [-> | ->]]]];
      destruct Hj as [-> | [-> | [-> | [-> | ->]]]]; reflexivity.
Qed.

End Interpreter.

(** ** Runs of the program's tests, with the default digit limit *)

Example split_example : Py.split "  a b   c " = ["a"; "b"; "c"].
Proof. reflexivity. Qed.

Example int_examples :
  map (Py.int default_max_str_digits) ["+1"; "-17"; "0_2"; "007"; "1_"; "x"; ""]
  = [Ret 1; Ret (-17); Ret 2; Ret 7;
     Raise ValueError; Raise ValueError; Raise ValueError].
Proof. vm_compute. reflexivity. Qed.

Example test_example_a :
  run_stream default_max_str_digits ["PLACE 0,0,NORTH"; "MOVE"; "REPORT"]
  = (Ret tt, mkState (Some 0) (Some 1) (Some "NORTH") true, ["0,1,NORTH"]).
Proof. vm_compute. reflexivity. Qed.

Example test_example_b :
  snd (run_stream default_max_str_digits ["PLACE 0,0,NORTH"; "LEFT"; "REPORT"])
  = ["0,0,WEST"].
Proof. vm_compute. reflexivity. Qed.

Example test_example_c :
  snd (run_stream default_max_str_digits
         ["PLACE 1,2,EAST"; "MOVE"; "MOVE"; "LEFT"; "MOVE"; "REPORT"])
  = ["3,3,NORTH"].
Proof. vm_compute. reflexivity. Qed.

Example test_ignores_commands_before_place :
  snd (run_stream default_max_str_digits
         ["MOVE"; "LEFT"; "REPORT"; "PLACE 0,0,NORTH"; "MOVE"; "REPORT"])
  = ["0,1,NORTH"].
Proof. vm_compute. reflexivity. Qed.

Example test_prevent_fall_off_table_north :
  snd (run_stream default_max_str_digits ["PLACE 0,4,NORTH"; "MOVE"; "REPORT"])
  = ["0,4,NORTH"].
Proof. vm_compute. reflexivity. Qed.

Example test_prevent_fall_off_table_west :
  snd (run_stream default_max_str_digits ["PLACE 0,0,WEST"; "MOVE"; "REPORT"])
  = ["0,0,WEST"].
Proof. vm_compute. reflexivity. Qed.

Example test_invalid_place_ignored :
  snd (run_stream default_max_str_digits
         ["PLACE 5,5,NORTH"; "MOVE"; "REPORT"; "PLACE 4,4,WEST"; "REPORT"])
  = ["4,4,WEST"].
Proof. vm_compute. reflexivity. Qed.

Example test_multiple_places :
  snd (run_stream default_max_str_digits
         ["PLACE 0,0,NORTH"; "MOVE"; "PLACE 2,2,EAST"; "MOVE"; "REPORT"])
  = ["3,2,EAST"].
Proof. vm_compute. reflexivity. Qed.

Example test_malformed_place_ignored :
  snd (run_stream default_max_str_digits
         ["PLACE foo"; "PLACE 1,2"; "PLACE 1,2,NORTH,EXTRA"; "REPORT";
          "PLACE 1,2,NORTH"; "REPORT"])
  = ["1,2,NORTH"].
Proof. vm_compute. reflexivity. Qed.

Example test_case_insensitive_commands :
  snd (run_stream default_max_str_digits ["place 0,0,north"; "move"; "rEpOrT"])
  = ["0,1,NORTH"].
Proof. vm_compute. reflexivity. Qed.

(** ** The theorems at concrete inputs *)

Lemma bounds_invariant_witness :
  reachable default_max_str_digits (mkState (Some 1) (Some 2) (Some "NORTH") true)
  /\ exists a b,
       x (mkState (Some 1) (Some 2) (Some "NORTH") true) = Some a
       /\ y (mkState (Some 1) (Some 2) (Some "NORTH") true) = Some b
       /\ 0 <= a < 5 /\ 0 <= b < 5.
Proof.
  assert (reachable default_max_str_digits
            (mkState (Some 1) (Some 2) (Some "NORTH") true)) as R.
  { exact (reachable_step default_max_str_digits create_initial_state
             (Line "PLACE 1,2,NORTH") (reachable_init default_max_str_digits)). }
  split; [exact R|].
  exact (proj1 (bounds_invariant default_max_str_digits _ R) eq_refl).
Defined.

Lemma move_unit_step_witness :
  unit_vector "NORTH" 0 1
  /\ ((0 <= 0 + 0 < 5 /\ 0 <= 4 + 1 < 5 /\
       move (mkState (Some 0) (Some 4) (Some "NORTH") true)
       = (Ret tt, mkState (Some (0 + 0)) (Some (4 + 1)) (Some "NORTH") true))
      \/ (~ (0 <= 0 + 0 < 5 /\ 0 <= 4 + 1 < 5) /\
          move (mkState (Some 0) (Some 4) (Some "NORTH") true)
          = (Ret tt, mkState (Some 0) (Some 4) (Some "NORTH") true))).
Proof.
  split; [exact unit_north|].
  exact (proj1 (move_unit_step (mkState (Some 0) (Some 4) (Some "NORTH") true))
           0 4 "NORTH" 0 1 eq_refl eq_refl eq_refl eq_refl unit_north).
Defined.

Lemma place_then_report_witness :
  any_case "nOrth" "NORTH"
  /\ (place 1 2 "nOrth" ;; report default_max_str_digits)%robot create_initial_state
     = (Ret (Some "1,2,NORTH"), mkState (Some 1) (Some 2) (Some "NORTH") true).
Proof.
  assert (any_case "nOrth" "NORTH") as C.
  { apply (any_case_lower "N"), any_case_same, (any_case_lower "R"),
      (any_case_lower "T"), (any_case_lower "H"), any_case_nil. }
  split; [exact C|].
  refine (proj1 (proj2 (place_then_report default_max_str_digits
                          create_initial_state 1 2 "nOrth" "NORTH" _ _ _ C))).
  - lia.
  - lia.
  - left. reflexivity.
Defined.

Lemma place_rejected_silently_witness :
  rejected_place default_max_str_digits ["PLACE"; "1,2,NORTH,EXTRA"]
  /\ process_line default_max_str_digits "PLACE 1,2,NORTH,EXTRA"
       (mkState (Some 3) (Some 3) (Some "EAST") true)
     = (Ret None, mkState (Some 3) (Some 3) (Some "EAST") true).
Proof.
  assert (rejected_place default_max_str_digits ["PLACE"; "1,2,NORTH,EXTRA"]) as J.
  { apply wrong_field_count. vm_compute. discriminate. }
  split; [exact J|].
  exact (proj1 (place_rejected_silently default_max_str_digits
                  (mkState (Some 3) (Some 3) (Some "EAST") true)
                  "PLACE 1,2,NORTH,EXTRA" "PLACE" ["1,2,NORTH,EXTRA"]
                  eq_refl eq_refl) J).
Defined.

Lemma no_place_no_report_witness :
  run_stream_from default_max_str_digits
    ["MOVE"; "PLACE 5,5,NORTH"; "REPORT"] create_initial_state
  = (Ret tt, create_initial_state, []).
Proof.
  refine (proj1 (proj1 (no_place_no_report default_max_str_digits)
                   ["MOVE"; "PLACE 5,5,NORTH"; "REPORT"] create_initial_state
                   eq_refl _)).
  repeat constructor; unfold places; vm_compute; discriminate.
Defined.

Lemma placed_monotone_witness :
  is_placed (snd (exec default_max_str_digits (Line "PLACE 9,9,NORTH")
                    (mkState (Some 3) (Some 3) (Some "EAST") true))) = true.
Proof.
  exact (proj1 (placed_monotone default_max_str_digits
                  (mkState (Some 3) (Some 3) (Some "EAST") true) eq_refl)
           (Line "PLACE 9,9,NORTH")).
Defined.

Lemma rotate_round_trip_witness :
  (rotate_left ;; rotate_right)%robot (mkState (Some 3) (Some 3) (Some "NORTH") true)
  = (Ret tt, mkState (Some 3) (Some 3) (Some "NORTH") true).
Proof.
  exact (proj1 (rotate_round_trip (mkState (Some 3) (Some 3) (Some "NORTH") true)
                  "NORTH" eq_refl eq_refl (or_introl eq_refl))).
Defined.

Lemma rotate_cycle_witness :
  exists l, left_of "NORTH" l /\
    rotate_left (mkState (Some 3) (Some 3) (Some "NORTH") true)
    = (Ret tt, mkState (Some 3) (Some 3) (Some l) true).
Proof.
  exact (proj1 (rotate_cycle (mkState (Some 3) (Some 3) (Some "NORTH") true)
                  "NORTH" eq_refl eq_refl (or_introl eq_refl))).
Defined.

Lemma first_token_dispatch_witness :
  exists l, left_of "EAST" l /\
    process_line default_max_str_digits "  left   turn"
      (mkState (Some 3) (Some 3) (Some "EAST") true)
    = (Ret None, mkState (Some 3) (Some 3) (Some l) true).
Proof.
  refine (proj1 (proj2 (proj1 (proj2 (first_token_dispatch default_max_str_digits))
                          3 3 "EAST" "  left   turn" "left" ["turn"] _ _ _ eq_refl))
            eq_refl).
  - lia.
  - lia.
  - right. left. reflexivity.
Defined.

(** ** The further theorems at concrete inputs *)

Lemma unknown_or_blank_ignored_witness :
  process_line default_max_str_digits "JUMP 3"
    (mkState (Some 3) (Some 3) (Some "EAST") true)
  = (Ret None, mkState (Some 3) (Some 3) (Some "EAST") true).
Proof.
  apply unknown_or_blank_ignored. right.
  exists "JUMP", ["3"]. split; [reflexivity|].
  cbn. intuition discriminate.
Defined.

Lemma output_only_from_report_witness :
  report default_max_str_digits (mkState (Some 3) (Some 3) (Some "EAST") true)
  = (Ret (Some "3,3,EAST"), mkState (Some 3) (Some 3) (Some "EAST") true).
Proof.
  exact (proj2 (proj2 (proj2
           (output_only_from_report default_max_str_digits
              (mkState (Some 3) (Some 3) (Some "EAST") true)
              (mkState (Some 3) (Some 3) (Some "EAST") true)
              " report " "3,3,EAST" eq_refl)))).
Defined.

Lemma same_tokens_same_effect_witness :
  process_line default_max_str_digits "  PLACE    1,2,NORTH  " create_initial_state
  = process_line default_max_str_digits "PLACE 1,2,NORTH" create_initial_state.
Proof.
  exact (same_tokens_same_effect default_max_str_digits create_initial_state
           "  PLACE    1,2,NORTH  " "PLACE 1,2,NORTH" eq_refl).
Defined.

Lemma report_place_round_trip_witness :
  process_line default_max_str_digits "PLACE 3,3,EAST" create_initial_state
  = (Ret None, mkState (Some 3) (Some 3) (Some "EAST") true).
Proof.
  refine (report_place_round_trip default_max_str_digits
            (mkState (Some 3) (Some 3) (Some "EAST") true) create_initial_state
            "3,3,EAST" _ eq_refl eq_refl).
  apply well_formed_placed; [lia | right; left; reflexivity].
Defined.

Lemma placing_line_resets_witness :
  exists a b d,
    (0 <= a < 5 /\ 0 <= b < 5) /\ In d DIRECTIONS /\
    forall st, process_line default_max_str_digits "place 4,0,west" st
               = (Ret None, mkState (Some a) (Some b) (Some d) true).
Proof.
  exact (placing_line_resets default_max_str_digits "place 4,0,west" eq_refl).
Defined.

Lemma reachable_states_witness :
  reachable default_max_str_digits (mkState (Some 4) (Some 0) (Some "WEST") true).
Proof.
  apply (proj2 (reachable_states default_max_str_digits _)). right.
  exists 4, 0, "WEST". split; [lia|]. split; [|reflexivity].
  right. right. right. left. reflexivity.
Defined.

Lemma moves_stop_at_edge_witness :
  iterate 7 move (mkState (Some 1) (Some 2) (Some "NORTH") true)
  = (Ret tt,
     mkState (Some (Z.max 0 (Z.min 4 (1 + Z.of_nat 7 * 0))))
             (Some (Z.max 0 (Z.min 4 (2 + Z.of_nat 7 * 1))))
             (Some "NORTH") true).
Proof.
  apply moves_stop_at_edge; [lia | lia | exact unit_north].
Defined.

Lemma move_and_back_witness :
  (move ;; rotate_left ;; rotate_left ;; move ;; rotate_left ;; rotate_left)%robot
    (mkState (Some 1) (Some 2) (Some "NORTH") true)
  = (Ret tt, mkState (Some 1) (Some 2) (Some "NORTH") true).
Proof.
  apply move_and_back.
  - apply well_formed_placed; [lia | left; reflexivity].
  - reflexivity.
  - discriminate.
Defined.

Lemma three_lefts_make_a_right_witness :
  iterate 3 rotate_left (mkState (Some 1) (Some 2) (Some "NORTH") true)
  = rotate_right (mkState (Some 1) (Some 2) (Some "NORTH") true).
Proof.
  refine (proj1 (three_lefts_make_a_right
                   (mkState (Some 1) (Some 2) (Some "NORTH") true) _)).
  intros _. exists "NORTH". split; [reflexivity | left; reflexivity].
Defined.

Lemma run_stream_returns_witness :
  fst (fst (run_stream_visual_from default_max_str_digits true
              ["MOVE"; "bogus"; "REPORT"]
              (mkState (Some 1) (Some 2) (Some "NORTH") true)))
  = Ret tt.
Proof.
  apply (proj2 (run_stream_returns default_max_str_digits true
                  ["MOVE"; "bogus"; "REPORT"])).
  apply well_formed_placed; [lia | left; reflexivity].
Defined.

Lemma printed_lines_are_reports_witness :
  Forall (fun p => exists a b d,
            (0 <= a < 5 /\ 0 <= b < 5) /\ In d DIRECTIONS /\ p = report_text a b d)
         (snd (run_stream_from default_max_str_digits
                 ["PLACE 0,0,NORTH"; "REPORT"; "RIGHT"; "report"]
                 create_initial_state)).
Proof.
  apply printed_lines_are_reports. intros P. discriminate P.
Defined.

Lemma one_line_per_report_witness :
  List.length (snd (run_stream_from default_max_str_digits
                      ["REPORT"; "MOVE"; "report now"]
                      (mkState (Some 1) (Some 2) (Some "NORTH") true)))
  = List.length (List.filter is_report_line ["REPORT"; "MOVE"; "report now"]).
Proof.
  refine (proj1 (one_line_per_report default_max_str_digits
                   ["REPORT"; "MOVE"; "report now"]
                   (mkState (Some 1) (Some 2) (Some "NORTH") true) _) eq_refl).
  apply well_formed_placed; [lia | left; reflexivity].
Defined.

Lemma visual_adds_only_witness :
  List.filter (starts_with "010")
    (snd (run_stream_visual_from default_max_str_digits true
            ["PLACE 0,0,NORTH"; ""; "REPORT"] create_initial_state))
  = List.map echo_of (List.filter is_nonblank ["PLACE 0,0,NORTH"; ""; "REPORT"]).
Proof.
  refine (proj1 (proj2 (proj2 (visual_adds_only default_max_str_digits
                                 ["PLACE 0,0,NORTH"; ""; "REPORT"]
                                 create_initial_state _)))).
  intros P. discriminate P.
Defined.


Lemma main_arguments_witness :
  main default_max_str_digits
    (fun _ => inr (mkSource ["PLACE 0,0,NORTH"; "REPORT"] None)) (mkSource [] None)
    ["-v"; "a.txt"]
  = main default_max_str_digits
      (fun _ => inr (mkSource ["PLACE 0,0,NORTH"; "REPORT"] None)) (mkSource [] None)
      ["a.txt"; "--visual"; "b.txt"; "-v"].
Proof.
  exact (main_arguments default_max_str_digits
           (fun _ => inr (mkSource ["PLACE 0,0,NORTH"; "REPORT"] None))
           (mkSource [] None)
           ["-v"; "a.txt"] ["a.txt"; "--visual"; "b.txt"; "-v"] eq_refl eq_refl).
Defined.

Lemma main_plain_output_witness :
  main default_max_str_digits (fun _ => inl (OSError "unused"))
    (mkSource ["PLACE 0,0,NORTH"; "MOVE"; "REPORT"] None) []
  = mkOutcome (Returned 0)
      (snd (run_stream default_max_str_digits ["PLACE 0,0,NORTH"; "MOVE"; "REPORT"]))
      [].
Proof.
  exact (proj2 (proj1 (main_plain_output default_max_str_digits
                         (fun _ => inl (OSError "unused"))
                         (mkSource ["PLACE 0,0,NORTH"; "MOVE"; "REPORT"] None) []
                         eq_refl) eq_refl) eq_refl).
Defined.

Lemma direction_symbols_witness :
  ~ exists d, @None string = Some d /\ In d DIRECTIONS.
Proof.
  exact (proj1 (proj2 (direction_symbols None)) eq_refl).
Defined.

Lemma render_table_shape_witness :
  exists lines,
    render_lines default_max_str_digits (mkState (Some 1) (Some 2) (Some "NORTH") true)
    = Ret lines
    /\ render_table default_max_str_digits
         (mkState (Some 1) (Some 2) (Some "NORTH") true)
       = Ret (Py.join Py.newline lines)
    /\ Py.split_sep Py.newline_char (Py.join Py.newline lines) = lines.
Proof.
  apply (proj2 (proj2 (render_table_shape default_max_str_digits
                         (mkState (Some 1) (Some 2) (Some "NORTH") true)))).
  apply well_formed_placed; [lia | left; reflexivity].
Defined.

Lemma render_table_cells_witness :
  exists c lines,
    _direction_symbol (Some "EAST") = String c EmptyString
    /\ render_lines default_max_str_digits
         (mkState (Some 1) (Some 3) (Some "EAST") true) = Ret lines
    /\ String.get (Z.to_nat (4 * 1 + 2))
         (List.nth (Z.to_nat (2 * (4 - 3) + 1)) lines EmptyString)
       = Some (if (1 =? 1) && (3 =? 3) then c else " "%char).
Proof.
  destruct (render_table_cells default_max_str_digits (Some "EAST"))
    as (c & E & Placed & Drawn & _).
  destruct (Drawn 1 3) as (lines & H); [lia | lia |].
  exists c, lines. split; [exact E|]. split; [exact H|].
  apply (Placed 1 3 lines 1 3 H); lia.
Defined.

Lemma place_restarts_run_witness :
  run_stream_from default_max_str_digits ["PLACE 1,2,NORTH"; "REPORT"]
    create_initial_state
  = run_stream_from default_max_str_digits ["PLACE 1,2,NORTH"; "REPORT"]
      (mkState (Some 4) (Some 4) (Some "WEST") true).
Proof.
  exact (place_restarts_run default_max_str_digits "PLACE 1,2,NORTH" ["REPORT"]
           create_initial_state (mkState (Some 4) (Some 4) (Some "WEST") true)
           eq_refl).
Defined.
